(** * AAQT training script: a shallow embedding of [train.py]

    The script fine-tunes a Vision Transformer.  What the repository itself
    programs is control: a running-average meter, checkpoint save and resume,
    the dataset dispatch of [setup], the all-reduce helper and the training
    loop with gradient accumulation and periodic validation.  Those parts are
    embedded here as executable definitions.  The numerical library (tensors,
    autograd, optimizer and scheduler internals) is kept abstract: its calls
    appear either as operations of a class or as events of a trace.

    Conventions.
    - Python integers are [Z]; [//] and [%] are [Z.div] and [Z.modulo] (both
      round towards minus infinity, the remainder has the divisor's sign) and
      raise [ZeroDivisionError] on a zero divisor.
    - The arithmetic of [AverageMeter] is embedded on binary64 floats
      ([AverageMeter64]).  Where only the order of two values or the
      operation performed matters (accuracies, tensors, the meter inside the
      loops, of which only the count bears on control) values are rationals
      [Q].
    - A Python call either returns or raises: [result A].  The exceptions
      modelled are those of the script's own operators, statements and names
      ([//], [%], [/], [[0]], [CONFIGS[...]], [raise], a name that is not
      bound).  Calls into the library ([torch.save], [torch.load],
      [load_state_dict], ...) are taken to return, except [dist.barrier]
      when there is no process group.
    - The script reads the global name [wnb] ([if wnb: wandb. ...]) in
      [valid], [train] and [main], and binds it nowhere: reading it raises
      [NameError].
    - Logging and the progress bar change nothing that is modelled and are
      left out.
    - A function of the loop returns the loop variables as they are when it
      returns or raises, so that what happened before an exception can be
      read off the trace.
    - [while True] is run on fuel, one unit per epoch: [None] stands for
      fuel that ran out, never for a result of the script. *)

From Stdlib Require Import ZArith QArith Lia List Bool.
From Stdlib Require PrimFloat SpecFloat FloatOps.
From stdpp Require Import gmap strings list fin_maps.

Open Scope Z_scope.

(** ** Exceptions and results *)

Inductive exn : Type :=
| ZeroDivisionError
| IndexError
| KeyError (key : string)
| FileNotFoundError (msg : string)
| Exception (msg : string)
| NameError (name : string)
| OverflowError
| ProcessGroupError.

Inductive result (A : Type) : Type :=
| Ok (a : A)
| Raise (e : exn).

Arguments Ok {A} a.
Arguments Raise {A} e.

#[global] Instance result_ret : MRet result := fun A a => Ok a.

#[global] Instance result_bind : MBind result := fun A B k r =>
  match r with
  | Ok a => k a
  | Raise e => Raise e
  end.

(** Python's [a // b] and [a % b] on integers. *)
Definition floordiv (a b : Z) : result Z :=
  if b =? 0 then Raise ZeroDivisionError else Ok (a / b).

Definition pymod (a b : Z) : result Z :=
  if b =? 0 then Raise ZeroDivisionError else Ok (a mod b).

(** Reading the global name [wnb].  The module assigns no such name and
    imports none (its imports name what they import, and [wandb] is not
    among them), so the read raises [NameError]. *)
Definition wnb : result bool := Raise (NameError "wnb").

(** ** [AverageMeter], values as rationals

    The meter as the loops use it: what can make a call raise, and so what
    bears on control, is the integer [count]. *)

Module AverageMeter.

Record t : Type := mk { val : Q; avg : Q; sum : Q; count : Z }.

(** [reset]: all four attributes become 0. *)
Definition reset : t := {| val := 0; avg := 0; sum := 0; count := 0 |}.

(** [__init__] only calls [reset]. *)
Definition init : t := reset.

(** [update(val, n=1)].  The true division [self.sum / self.count] raises
    when the new count is zero. *)
Definition update (m : t) (v : Q) (n : Z) : result t :=
  let sum' := (sum m + v * inject_Z n)%Q in
  let count' := count m + n in
  if count' =? 0 then Raise ZeroDivisionError
  else Ok {| val := v; avg := (sum' / inject_Z count')%Q;
             sum := sum'; count := count' |}.

(** A sequence of [update] calls, first call first. *)
Fixpoint updates (m : t) (calls : list (Q * Z)) : result t :=
  match calls with
  | [] => Ok m
  | (v, n) :: rest => m' ← update m v n; updates m' rest
  end.


End AverageMeter.

(** ** [AverageMeter] on binary64 floats

    The class as Python runs it when [update] is given a float [val] and an
    integer [n], as [train] and [valid] do: [val], [avg] and [sum] are
    binary64 values, [count] is an integer. *)

Module AverageMeter64.

Import PrimFloat.

Record t : Type := mk { val : float; avg : float; sum : float; count : Z }.

(** [reset]: all four attributes become 0. *)
Definition reset : t := {| val := 0%float; avg := 0%float; sum := 0%float; count := 0 |}.

Definition init : t := reset.

(** The binary64 value nearest to an integer (ties to even). *)
Definition nearest (n : Z) : SpecFloat.spec_float :=
  SpecFloat.binary_normalize FloatOps.prec FloatOps.emax n 0 false.

Definition to_float (n : Z) : float := FloatOps.SF2Prim (nearest n).

(** The conversion of an integer operand of [*] or [/] whose other operand
    is a float: [OverflowError] when the integer is too large. *)
Definition float_of_int (n : Z) : result float :=
  match nearest n with
  | SpecFloat.S754_infinity _ => Raise OverflowError
  | _ => Ok (to_float n)
  end.

(** [update(val, n=1)].  [self.sum / self.count] converts the count and
    then raises [ZeroDivisionError] when it is zero. *)
Definition update (m : t) (v : float) (n : Z) : result t :=
  fn ← float_of_int n;
  let sum' := (sum m + v * fn)%float in
  let count' := count m + n in
  fc ← float_of_int count';
  if count' =? 0 then Raise ZeroDivisionError
  else Ok {| val := v; avg := (sum' / fc)%float; sum := sum'; count := count' |}.

(** A sequence of [update] calls, first call first. *)
Fixpoint updates (m : t) (calls : list (float * Z)) : result t :=
  match calls with
  | [] => Ok m
  | (v, n) :: rest => m' ← update m v n; updates m' rest
  end.

(** The sum of the [n_i]. *)
Definition total_count (calls : list (float * Z)) : Z :=
  fold_right (fun c acc => snd c + acc) 0 calls.

(** The [val_i * n_i] added up in binary64, in the order of the calls,
    starting from [acc]. *)
Definition float_sum (acc : float) (calls : list (float * Z)) : float :=
  fold_left (fun a c => (a + fst c * to_float (snd c))%float) calls acc.

Definition last_val (calls : list (float * Z)) : option float :=
  fst <$> last calls.

(** No call raises: every [n_i] and every running count converts, and no
    running count is zero. *)
Fixpoint defined (c : Z) (calls : list (float * Z)) : bool :=
  match calls with
  | [] => true
  | (_, n) :: rest =>
      match float_of_int n, float_of_int (c + n) with
      | Ok _, Ok _ => negb (c + n =? 0) && defined (c + n) rest
      | _, _ => false
      end
  end.

(** 0.1, 0.2 and 0.6 as binary64 constants. *)
Definition tenth : float := 0x1.999999999999ap-4%float.
Definition fifth : float := 0x1.999999999999ap-3%float.
Definition three_fifths : float := 0x1.3333333333333p-1%float.

End AverageMeter64.

(** ** Command-line arguments

    The attributes of the [argparse] namespace that the embedded functions
    read, followed by the attributes [main] adds after parsing. *)

Record Args : Type := mkArgs {
  name : string;
  dataset : string;
  model_type : string;
  pretrained_dir : string;
  output_dir : string;
  img_size : Z;
  train_batch_size : Z;
  eval_every : Z;
  learning_rate : Q;
  weight_decay : Q;
  num_steps : Z;
  decay_type : string;
  warmup_steps : Z;
  max_grad_norm : Q;
  local_rank : Z;
  gradient_accumulation_steps : Z;
  fp16 : bool;
  smoothing_value : Q;
  aplly_BE : bool;
  contr_loss : bool;
  focal_loss : bool;
  start_step : Z;
  nprocs : Z;
  test_best_acc : option Q
}.

(** Attribute assignments [args.x = v]. *)
Definition set_train_batch_size (a : Args) (v : Z) : Args :=
  mkArgs (name a) (dataset a) (model_type a) (pretrained_dir a) (output_dir a)
    (img_size a) v (eval_every a) (learning_rate a) (weight_decay a)
    (num_steps a) (decay_type a) (warmup_steps a) (max_grad_norm a)
    (local_rank a) (gradient_accumulation_steps a) (fp16 a)
    (smoothing_value a) (aplly_BE a) (contr_loss a) (focal_loss a)
    (start_step a) (nprocs a) (test_best_acc a).

Definition set_start_step (a : Args) (v : Z) : Args :=
  mkArgs (name a) (dataset a) (model_type a) (pretrained_dir a) (output_dir a)
    (img_size a) (train_batch_size a) (eval_every a) (learning_rate a)
    (weight_decay a) (num_steps a) (decay_type a) (warmup_steps a)
    (max_grad_norm a) (local_rank a) (gradient_accumulation_steps a) (fp16 a)
    (smoothing_value a) (aplly_BE a) (contr_loss a) (focal_loss a)
    v (nprocs a) (test_best_acc a).

Definition set_nprocs (a : Args) (v : Z) : Args :=
  mkArgs (name a) (dataset a) (model_type a) (pretrained_dir a) (output_dir a)
    (img_size a) (train_batch_size a) (eval_every a) (learning_rate a)
    (weight_decay a) (num_steps a) (decay_type a) (warmup_steps a)
    (max_grad_norm a) (local_rank a) (gradient_accumulation_steps a) (fp16 a)
    (smoothing_value a) (aplly_BE a) (contr_loss a) (focal_loss a)
    (start_step a) v (test_best_acc a).

Definition set_test_best_acc (a : Args) (v : Q) : Args :=
  mkArgs (name a) (dataset a) (model_type a) (pretrained_dir a) (output_dir a)
    (img_size a) (train_batch_size a) (eval_every a) (learning_rate a)
    (weight_decay a) (num_steps a) (decay_type a) (warmup_steps a)
    (max_grad_norm a) (local_rank a) (gradient_accumulation_steps a) (fp16 a)
    (smoothing_value a) (aplly_BE a) (contr_loss a) (focal_loss a)
    (start_step a) (nprocs a) (Some v).

(** [args.local_rank in [-1, 0]] *)
Definition is_main_process (a : Args) : bool :=
  (local_rank a =? -1) || (local_rank a =? 0).

(** ** The numerical library

    What the script calls and does not define: the objects of the deep
    learning framework and the repository's own model and scheduler modules,
    which are not part of the sources at hand.  Their calls are assumed to
    return; what they compute stays abstract. *)

Class Torch : Type := {
  Model : Type;
  Optimizer : Type;
  Scheduler : Type;
  StateDict : Type;
  Batch : Type;
  Config : Type;
  (** [models.model.CONFIGS] *)
  CONFIGS : gmap string Config;
  (** [VisionTransformer(config, img_size, zero_head=True, num_classes=..,
      smoothing_value=.., dataset=.., contr_loss=.., focal_loss=..)] *)
  VisionTransformer : Config -> Z -> Z -> Q -> string -> bool -> bool -> Model;
  (** [model.load_from(np.load(path))] and [model.to(device)] *)
  load_from : Model -> string -> Model;
  (** [getattr(model, 'module')] when the attribute exists *)
  module_attr : Model -> option Model;
  model_state_dict : Model -> StateDict;
  model_load_state_dict : Model -> StateDict -> Model;
  optimizer_state_dict : Optimizer -> StateDict;
  optimizer_load_state_dict : Optimizer -> StateDict -> Optimizer;
  scheduler_state_dict : Scheduler -> StateDict;
  scheduler_load_state_dict : Scheduler -> StateDict -> Scheduler;
  (** [torch.optim.SGD(model.parameters(), lr, momentum=0.9, weight_decay)] *)
  SGD : Model -> Q -> Q -> Optimizer;
  (** [Warmup*Schedule(optimizer, warmup_steps, t_total)] *)
  WarmupCosineSchedule : Optimizer -> Z -> Z -> Scheduler;
  WarmupLinearSchedule : Optimizer -> Z -> Z -> Scheduler;
  (** [amp.initialize] and the apex [DistributedDataParallel] wrapper *)
  amp_initialize : Model -> Optimizer -> Model * Optimizer;
  DDP : Model -> Model;
  (** [get_loader(args)]: the batches of each training epoch and the test
      batches *)
  get_loader : Args -> (nat -> list Batch) * list Batch;
  (** the label tensor [y] of a batch *)
  labels : Batch -> list Z;
  (** [model.train()] / [model.eval()] *)
  set_mode : bool -> Model -> Model;
  (** [model(x, y)] in training: the loss (after [.mean()] when
      [contr_loss]) and [argmax(logits)] *)
  forward : Args -> Model -> Batch -> Q * list Z;
  (** [model(x)[0]] under [no_grad] followed by the cross entropy:
      [eval_loss.item()] and [argmax(logits)] *)
  eval_forward : Args -> Model -> Batch -> Q * list Z;
  (** [(loss / divisor).backward()]: gradients are added to [.grad] *)
  backward : Args -> Model -> Batch -> Z -> Model;
  clip_grad_norm_ : Args -> Model -> Optimizer -> Model * Optimizer;
  optimizer_step : Optimizer -> Model -> Optimizer * Model;
  scheduler_step : Scheduler -> Optimizer -> Scheduler * Optimizer;
  zero_grad : Model -> Model;
  (** what the other processes contribute to the [all_reduce] at the end of
      an epoch *)
  all_reduce_peers : nat -> list (list Q);
  (** the name that [SummaryWriter] gives its event file (it holds the time,
      the host name and the process id) *)
  tfevents_name : string
}.

(** ** Small Python and numpy helpers *)

(** The double-quote character, for the message of [setup]. *)
Definition dquote : string := String (Ascii.ascii_of_nat 34) EmptyString.

(** [x < y] on floats. *)
Definition Qltb (x y : Q) : bool :=
  match (x ?= y)%Q with
  | Lt => true
  | _ => false
  end.

Fixpoint ends_with_slash (s : string) : bool :=
  match s with
  | EmptyString => false
  | String c EmptyString => Ascii.eqb c (Ascii.ascii_of_nat 47)
  | String _ rest => ends_with_slash rest
  end.

(** [os.path.join(a, b)] on POSIX paths. *)
Definition os_path_join (a b : string) : string :=
  if String.prefix "/" b then b
  else if (a =? "")%string || ends_with_slash a then a +:+ b
  else a +:+ "/" +:+ b.

(** [enumerate(l)] *)
Fixpoint enumerate_from {A : Type} (i : Z) (l : list A) : list (Z * A) :=
  match l with
  | [] => []
  | x :: rest => (i, x) :: enumerate_from (i + 1) rest
  end.

Definition enumerate {A : Type} (l : list A) : list (Z * A) :=
  enumerate_from 0 l.

(** The idiom of [train] and [valid] that keeps one growing array in a list:
    [if len(acc) == 0: acc.append(arr) else: acc[0] = np.append(acc[0], arr)]. *)
Definition np_accumulate (acc : list (list Z)) (arr : list Z) : list (list Z) :=
  match acc with
  | [] => [arr]
  | a0 :: rest => (a0 ++ arr) :: rest
  end.

(** [acc[0]] *)
Definition py_first {A : Type} (acc : list A) : result A :=
  match acc with
  | [] => Raise IndexError
  | a0 :: _ => Ok a0
  end.

(** [simple_accuracy]: [(preds == labels).mean()] on arrays of one shape. *)
Fixpoint count_equal (preds labels : list Z) : Z :=
  match preds, labels with
  | p :: ps, l :: ls => (if p =? l then 1 else 0) + count_equal ps ls
  | _, _ => 0
  end.

Definition simple_accuracy (preds labels : list Z) : Q :=
  (inject_Z (count_equal preds labels) / inject_Z (Z.of_nat (length preds)))%Q.

(** ** [reduce_mean]

    Tensors are mutable objects: a heap maps references to their contents,
    so that a copy and an update in place are told apart. *)

Definition tensor_add (a b : list Q) : list Q := zip_with Qplus a b.

(** [tensor.clone()] *)
Definition clone (heap : gmap nat (list Q)) (tensor : nat)
  : gmap nat (list Q) * nat :=
  let rt := fresh (dom heap) in
  (<[rt := default [] (heap !! tensor)]> heap, rt).

(** [dist.all_reduce(t, op=SUM)]: [t] is overwritten with the elementwise
    sum of the tensors of all processes; [peers] are those of the others. *)
Definition all_reduce_sum (peers : list (list Q)) (heap : gmap nat (list Q))
    (t : nat) : gmap nat (list Q) :=
  alter (fun x => fold_left tensor_add peers x) t heap.

(** [t /= n] *)
Definition idiv (heap : gmap nat (list Q)) (t : nat) (n : Z)
  : gmap nat (list Q) :=
  alter (fun x => map (fun q => (q / inject_Z n)%Q) x) t heap.

Definition reduce_mean (peers : list (list Q)) (heap : gmap nat (list Q))
    (tensor : nat) (nprocs : Z) : gmap nat (list Q) * nat :=
  let '(heap1, rt) := clone heap tensor in
  let heap2 := all_reduce_sum peers heap1 rt in
  let heap3 := idiv heap2 rt nprocs in
  (heap3, rt).

(** The sum over all processes at one coordinate. *)
Fixpoint sum_at (i : nat) (tensors : list (list Q)) : Q :=
  match tensors with
  | [] => 0%Q
  | t :: rest => (default 0%Q (t !! i) + sum_at i rest)%Q
  end.

(** ** The trace of calls made by the training loop

    [EValid] marks a call of [valid], [EValidReturn] its return with an
    accuracy.  [EModelZeroGrad] is the [model.zero_grad()] before the loop,
    [EZeroGrad] the [optimizer.zero_grad()] of an update. *)

Inductive event : Type :=
| EModelZeroGrad
| EBackward (epoch : nat) (step : Z) (divisor : Z)
| EClipGradNorm
| EOptimizerStep
| ESchedulerStep
| EZeroGrad
| EGlobalStep (global_step : Z)
| EValid (global_step : Z)
| EValidReturn (global_step : Z) (accuracy : Q)
| ESaveModel (global_step : Z) (test_best_acc : Q)
| ETrainAccuracy (epoch : nat) (train_accuracy : list Q).

(** [setup]: the dataset dispatch. *)
Definition dataset_num_classes (d : string) : result Z :=
  if (d =? "dogs")%string then Ok 120
  else if (d =? "CUB")%string then Ok 200
  else if (d =? "nabirds")%string then Ok 555
  else if (d =? "INat2017")%string then Ok 5089
  else Raise (Exception ("Unknown dataset " +:+ dquote +:+ d +:+ dquote)).

Section Embedding.
Context `{T : Torch}.

(** ** Checkpoints and the file system *)

(** The dictionary that [save_model] passes to [torch.save]. *)
Record Checkpoint : Type := mkCheckpoint {
  ck_model_state_dict : StateDict;
  ck_optimizer_state_dict : StateDict;
  ck_scheduler_state_dict : StateDict;
  ck_global_step : Z;
  ck_test_best_acc : Q;
  ck_args : Args
}.

(** What a path holds: a regular file written by [torch.save], a
    directory, or the event file of a [SummaryWriter]. *)
Inductive node : Type :=
| File (content : Checkpoint)
| Dir
| EventFile.

(** [os.path.isfile] *)
Definition isfile (fs : gmap string node) (path : string) : bool :=
  match fs !! path with
  | Some (File _) => true
  | _ => false
  end.

(** [os.makedirs(path, exist_ok=True)] *)
Definition makedirs (fs : gmap string node) (path : string)
  : gmap string node :=
  match fs !! path with
  | Some _ => fs
  | None => <[path := Dir]> fs
  end.

(** [SummaryWriter(log_dir=path)]: the directory is created and an event
    file is opened in it. *)
Definition SummaryWriter (fs : gmap string node) (path : string)
  : gmap string node :=
  <[os_path_join path tfevents_name := EventFile]> (makedirs fs path).

(** [os.path.join(args.output_dir, "%s_checkpoint.bin" % args.name)] *)
Definition checkpoint_path (args : Args) : string :=
  os_path_join (output_dir args) (name args +:+ "_checkpoint.bin").

Definition save_model (fs : gmap string node) (args : Args) (model : Model)
    (optimizer : Optimizer) (scheduler : Scheduler) (global_step : Z)
    (test_best_acc : Q) : gmap string node :=
  let model_to_save :=
    match module_attr model with
    | Some m => m
    | None => model
    end in
  let model_checkpoint := checkpoint_path args in
  <[model_checkpoint :=
      File {| ck_model_state_dict := model_state_dict model_to_save;
              ck_optimizer_state_dict := optimizer_state_dict optimizer;
              ck_scheduler_state_dict := scheduler_state_dict scheduler;
              ck_global_step := global_step;
              ck_test_best_acc := test_best_acc;
              ck_args := args |}]> fs.

(** [resume_training] returns its four values and has assigned
    [args.start_step]; the updated [args] is returned with them. *)
Definition resume_training (fs : gmap string node) (args : Args)
    (model : Model) (optimizer : Optimizer) (scheduler : Scheduler)
  : result (Args * Model * Optimizer * Scheduler * Q) :=
  let model_checkpoint := checkpoint_path args in
  match fs !! model_checkpoint with
  | Some (File checkpoint) =>
      let model := model_load_state_dict model (ck_model_state_dict checkpoint) in
      let optimizer :=
        optimizer_load_state_dict optimizer (ck_optimizer_state_dict checkpoint) in
      let scheduler :=
        scheduler_load_state_dict scheduler (ck_scheduler_state_dict checkpoint) in
      let args := set_start_step args (ck_global_step checkpoint) in
      let test_best_acc := ck_test_best_acc checkpoint in
      Ok (args, model, optimizer, scheduler, test_best_acc)
  | _ =>
      Raise (FileNotFoundError ("No checkpoint found at " +:+ model_checkpoint))
  end.

(** ** [setup] *)

Definition setup (args : Args) : result (Args * Model) :=
  config ← match CONFIGS !! model_type args with
           | Some c => Ok c
           | None => Raise (KeyError (model_type args))
           end;
  num_classes ← dataset_num_classes (dataset args);
  let model :=
    VisionTransformer config (img_size args) num_classes
      (smoothing_value args) (dataset args) (contr_loss args)
      (focal_loss args) in
  let model := load_from model (pretrained_dir args) in
  Ok (args, model).

(** ** [valid] *)

(** The [for] loop of [valid].  Its body begins with
    [if wnb: wandb.log({"step": step})]. *)
Fixpoint valid_loop (args : Args) (model : Model) (batches : list Batch)
    (eval_losses : AverageMeter.t) (all_preds all_label : list (list Z))
  : result (AverageMeter.t * list (list Z) * list (list Z)) :=
  match batches with
  | [] => Ok (eval_losses, all_preds, all_label)
  | batch :: rest =>
      _ ← wnb;
      let '(eval_loss, preds) := eval_forward args model batch in
      eval_losses ← AverageMeter.update eval_losses eval_loss 1;
      valid_loop args model rest eval_losses
        (np_accumulate all_preds preds)
        (np_accumulate all_label (labels batch))
  end.

(** Returns the model, now in evaluation mode, and the accuracy.  The last
    statement before [return] is [if wnb: wandb.log({"acc_test": accuracy})]. *)
Definition valid (args : Args) (model : Model) (test_loader : list Batch)
    (global_step : Z) : result (Model * Q) :=
  let eval_losses := AverageMeter.init in
  let model := set_mode false model in
  '(_, all_preds, all_label) ←
      valid_loop args model test_loader eval_losses [] [];
  all_preds ← py_first all_preds;
  all_label ← py_first all_label;
  let accuracy := simple_accuracy all_preds all_label in
  _ ← wnb;
  Ok (model, accuracy).

(** ** [train] *)

(** The variables of [train] that change while it loops, the file system
    and the trace. *)
Record Loop : Type := mkLoop {
  fs : gmap string node;
  model : Model;
  optimizer : Optimizer;
  scheduler : Scheduler;
  losses : AverageMeter.t;
  global_step : Z;
  best_acc : Q;
  all_preds : list (list Z);
  all_label : list (list Z);
  trace : list event
}.

Definition log (st : Loop) (events : list event) : Loop :=
  mkLoop (fs st) (model st) (optimizer st) (scheduler st) (losses st)
    (global_step st) (best_acc st) (all_preds st) (all_label st)
    (trace st ++ events).

(** [dist.barrier()].  [main] initialises the process group only when
    [local_rank] is not -1; without a process group the call raises. *)
Definition dist_barrier (args : Args) : result unit :=
  if local_rank args =? -1 then Raise ProcessGroupError else Ok tt.

(** The body of [if global_step % eval_every == 0 and local_rank in
    [-1, 0]].  When [valid] raises it has put the model in evaluation
    mode. *)
Definition evaluate (args : Args) (test_loader : list Batch) (st : Loop)
  : Loop * result unit :=
  let st1 :=
    mkLoop (fs st) (set_mode false (model st)) (optimizer st) (scheduler st)
      (losses st) (global_step st) (best_acc st) (all_preds st)
      (all_label st) (trace st ++ [EValid (global_step st)]) in
  match valid args (model st) test_loader (global_step st) with
  | Raise e => (st1, Raise e)
  | Ok (model1, accuracy) =>
      let st2 := log st1 [EValidReturn (global_step st) accuracy] in
      let '(fs3, best_acc3, trace3) :=
        if Qltb (best_acc st) accuracy then
          (save_model (fs st) args model1 (optimizer st) (scheduler st)
             (global_step st) (best_acc st),
           accuracy,
           trace st2 ++ [ESaveModel (global_step st) (best_acc st)])
        else (fs st, best_acc st, trace st2) in
      (mkLoop fs3 (set_mode true model1) (optimizer st) (scheduler st)
         (losses st) (global_step st) best_acc3 (all_preds st)
         (all_label st) trace3,
       Ok tt)
  end.

(** The body of [for step, batch in enumerate(epoch_iterator)]; the
    boolean tells whether the body ended in [break]. *)
Definition train_step (args : Args) (test_loader : list Batch)
    (epoch : nat) (step : Z) (batch : Batch) (st : Loop)
  : Loop * result bool :=
  let g := gradient_accumulation_steps args in
  let '(loss, preds) := forward args (model st) batch in
  let all_preds1 := np_accumulate (all_preds st) preds in
  let all_label1 := np_accumulate (all_label st) (labels batch) in
  let divisor := if 1 <? g then g else 1 in
  let loss := if 1 <? g then (loss / inject_Z g)%Q else loss in
  let model1 := backward args (model st) batch divisor in
  let st1 :=
    mkLoop (fs st) model1 (optimizer st) (scheduler st) (losses st)
      (global_step st) (best_acc st) all_preds1 all_label1
      (trace st ++ [EBackward epoch step divisor]) in
  match pymod (step + 1) g with
  | Raise e => (st1, Raise e)
  | Ok r =>
      if r =? 0 then
        match AverageMeter.update (losses st) (loss * inject_Z g)%Q 1 with
        | Raise e => (st1, Raise e)
        | Ok losses1 =>
            let '(model2, optimizer2) :=
              clip_grad_norm_ args model1 (optimizer st) in
            let '(optimizer3, model3) := optimizer_step optimizer2 model2 in
            let '(scheduler4, optimizer4) :=
              scheduler_step (scheduler st) optimizer3 in
            let model5 := zero_grad model3 in
            let global_step1 := global_step st + 1 in
            let st5 :=
              mkLoop (fs st) model5 optimizer4 scheduler4 losses1
                global_step1 (best_acc st) all_preds1 all_label1
                (trace st1 ++ [EClipGradNorm; EOptimizerStep; ESchedulerStep;
                               EZeroGrad; EGlobalStep global_step1]) in
            match pymod global_step1 (eval_every args) with
            | Raise e => (st5, Raise e)
            | Ok r =>
                let '(st6, validated) :=
                  if (r =? 0) && is_main_process args
                  then evaluate args test_loader st5
                  else (st5, Ok tt) in
                match validated with
                | Raise e => (st6, Raise e)
                | Ok _ =>
                    match pymod global_step1 (num_steps args) with
                    | Raise e => (st6, Raise e)
                    | Ok r => (st6, Ok (r =? 0))
                    end
                end
            end
        end
      else (st1, Ok false)
  end.

Fixpoint run_epoch (args : Args) (test_loader : list Batch) (epoch : nat)
    (batches : list (Z * Batch)) (st : Loop) : Loop * result bool :=
  match batches with
  | [] => (st, Ok false)
  | (step, batch) :: rest =>
      match train_step args test_loader epoch step batch st with
      | (st1, Ok false) => run_epoch args test_loader epoch rest st1
      | out => out
      end
  end.

(** What follows the [for] loop in the body of [while True]; the boolean
    tells whether it ended in [break].  After the accuracy is written to the
    event file comes [if wnb: wandb.log({"acc_train": train_accuracy})]. *)
Definition epoch_end (args : Args) (epoch : nat) (st : Loop)
  : Loop * result bool :=
  match py_first (all_preds st), py_first (all_label st) with
  | Raise e, _ => (st, Raise e)
  | Ok _, Raise e => (st, Raise e)
  | Ok preds, Ok labs =>
      let accuracy := simple_accuracy preds labs in
      match dist_barrier args with
      | Raise e => (st, Raise e)
      | Ok _ =>
          let heap : gmap nat (list Q) := {[ 0%nat := [accuracy] ]} in
          let '(heap1, rt) :=
            reduce_mean (all_reduce_peers epoch) heap 0%nat (nprocs args) in
          let train_accuracy := default [] (heap1 !! rt) in
          let st1 := log st [ETrainAccuracy epoch train_accuracy] in
          match wnb with
          | Raise e => (st1, Raise e)
          | Ok _ =>
              let st2 :=
                mkLoop (fs st1) (model st1) (optimizer st1) (scheduler st1)
                  AverageMeter.reset (global_step st1) (best_acc st1)
                  (all_preds st1) (all_label st1) (trace st1) in
              match pymod (global_step st) (num_steps args) with
              | Raise e => (st2, Raise e)
              | Ok r => (st2, Ok (r =? 0))
              end
          end
      end
  end.

(** What precedes the [for] loop in the body of [while True]:
    [model.train()] and [all_preds, all_label = [], []]. *)
Definition epoch_start (st : Loop) : Loop :=
  mkLoop (fs st) (set_mode true (model st)) (optimizer st) (scheduler st)
    (losses st) (global_step st) (best_acc st) [] [] (trace st).

(** [while True]: [None] when [fuel] epochs were not enough. *)
Fixpoint train_loop (fuel : nat) (args : Args)
    (train_loader : nat -> list Batch) (test_loader : list Batch)
    (epoch : nat) (st : Loop) : option (Loop * result unit) :=
  match fuel with
  | O => None
  | S fuel' =>
      match run_epoch args test_loader epoch
              (enumerate (train_loader epoch)) (epoch_start st) with
      | (st1, Raise e) => Some (st1, Raise e)
      | (st1, Ok _) =>
          match epoch_end args epoch st1 with
          | (st2, Raise e) => Some (st2, Raise e)
          | (st2, Ok true) => Some (st2, Ok tt)
          | (st2, Ok false) =>
              train_loop fuel' args train_loader test_loader (S epoch) st2
          end
      end
  end.

(** The state in which [train] enters [while True], and the arguments and
    loaders it has by then. *)
Definition train_init (fs0 : gmap string node) (args : Args)
    (model0 : Model) (optimizer0 : option Optimizer)
    (scheduler0 : option Scheduler)
  : result (Args * (nat -> list Batch) * list Batch * Loop) :=
  let fs1 := makedirs fs0 (output_dir args) in
  let fs2 := SummaryWriter fs1 (os_path_join "logs" (name args)) in
  bs ← floordiv (train_batch_size args) (gradient_accumulation_steps args);
  let args := set_train_batch_size args bs in
  let '(train_loader, test_loader) := get_loader args in
  let optimizer1 :=
    match optimizer0 with
    | Some o => o
    | None => SGD model0 (learning_rate args) (weight_decay args)
    end in
  let scheduler1 :=
    match scheduler0 with
    | Some s => s
    | None =>
        if (decay_type args =? "cosine")%string
        then WarmupCosineSchedule optimizer1 (warmup_steps args) (num_steps args)
        else WarmupLinearSchedule optimizer1 (warmup_steps args) (num_steps args)
    end in
  let '(model1, optimizer2) :=
    if fp16 args then amp_initialize model0 optimizer1
    else (model0, optimizer1) in
  let model2 := if local_rank args =? -1 then model1 else DDP model1 in
  let model3 := zero_grad model2 in
  let losses := AverageMeter.init in
  let '(global_step, best_acc) := (0, 0%Q) in
  Ok (args, train_loader, test_loader,
      mkLoop fs2 model3 optimizer2 scheduler1 losses global_step best_acc
        [] [] [EModelZeroGrad]).

(** [train], with the loop variables as they are where the loop was left:
    by [break] ([Ok tt]) or by an exception. *)
Definition train_run (fuel : nat) (fs0 : gmap string node) (args : Args)
    (model0 : Model) (optimizer0 : option Optimizer)
    (scheduler0 : option Scheduler) : option (result (Loop * result unit)) :=
  match train_init fs0 args model0 optimizer0 scheduler0 with
  | Raise e => Some (Raise e)
  | Ok (args, train_loader, test_loader, st) =>
      match train_loop fuel args train_loader test_loader 0%nat st with
      | None => None
      | Some out => Some (Ok out)
      end
  end.

(** [train]: what the call returns or raises. *)
Definition train (fuel : nat) (fs0 : gmap string node) (args : Args)
    (model0 : Model) (optimizer0 : option Optimizer)
    (scheduler0 : option Scheduler) : option (result Loop) :=
  match train_run fuel fs0 args model0 optimizer0 scheduler0 with
  | None => None
  | Some (Raise e) => Some (Raise e)
  | Some (Ok (st, Ok _)) => Some (Ok st)
  | Some (Ok (_, Raise e)) => Some (Raise e)
  end.

(** ** [main], after argument parsing

    [device_count] is [torch.cuda.device_count()].  Between the resumption
    and the call of [train] stands [if wnb: wandb.watch(model)]. *)
Definition main (fuel : nat) (device_count : Z) (fs0 : gmap string node)
    (args : Args) : option (result Loop) :=
  let args := set_nprocs args device_count in
  match setup args with
  | Raise e => Some (Raise e)
  | Ok (args, model) =>
      let resumed :=
        if 0 <? start_step args then
          let optimizer :=
            SGD model (learning_rate args) (weight_decay args) in
          let scheduler :=
            if (decay_type args =? "cosine")%string
            then WarmupCosineSchedule optimizer (warmup_steps args) (num_steps args)
            else WarmupLinearSchedule optimizer (warmup_steps args) (num_steps args) in
          '(args, model, optimizer, scheduler, acc) ←
              resume_training fs0 args model optimizer scheduler;
          Ok (set_test_best_acc args acc, model, Some optimizer, Some scheduler)
        else Ok (args, model, None, None) in
      match resumed with
      | Raise e => Some (Raise e)
      | Ok (args, model, optimizer, scheduler) =>
          match wnb with
          | Raise e => Some (Raise e)
          | Ok _ => train fuel fs0 args model optimizer scheduler
          end
      end
  end.

End Embedding.

(** ** Reading a trace *)

(** The values [global_step] takes, one per [global_step += 1]. *)
Definition global_steps (tr : list event) : list Z :=
  omap (fun ev => match ev with EGlobalStep gs => Some gs | _ => None end) tr.

(** The divisor applied to each micro-batch loss before [backward]. *)
Definition backward_divisors (tr : list event) : list Z :=
  omap (fun ev => match ev with EBackward _ _ d => Some d | _ => None end) tr.

(** The micro-batches (epoch, index) that were backpropagated. *)
Definition backward_sites (tr : list event) : list (nat * Z) :=
  omap (fun ev => match ev with EBackward e s _ => Some (e, s) | _ => None end) tr.

(** The returns of [valid]: the step number and the accuracy. *)
Definition validations (tr : list event) : list (Z * Q) :=
  omap (fun ev => match ev with EValidReturn gs a => Some (gs, a) | _ => None end) tr.

(** The calls of [save_model]: the step number and the [test_best_acc]
    passed. *)
Definition saves (tr : list event) : list (Z * Q) :=
  omap (fun ev => match ev with ESaveModel gs a => Some (gs, a) | _ => None end) tr.

(** The increments of [global_step] (marked [false]) and the calls of
    [valid] (marked [true]), in the order in which they happened. *)
Definition step_log (tr : list event) : list (Z * bool) :=
  omap (fun ev => match ev with
                  | EGlobalStep gs => Some (gs, false)
                  | EValid gs => Some (gs, true)
                  | _ => None
                  end) tr.

(** [gs] is a multiple of the period [every] (which is not zero) and the
    rank is -1 or 0. *)
Definition validation_due (every rank gs : Z) : bool :=
  negb (every =? 0) && (gs mod every =? 0) && ((rank =? -1) || (rank =? 0)).

(** [1; 2; ...; n] *)
Definition steps_upto (n : Z) : list Z :=
  map (fun i => Z.of_nat i) (seq 1 (Z.to_nat n)).

(** The step log of [n] optimizer steps each followed by a call of [valid]
    exactly when [validation_due] holds of its number. *)
Definition expected_step_log (every rank n : Z) : list (Z * bool) :=
  flat_map (fun gs => (gs, false) ::
                      (if validation_due every rank gs then [(gs, true)] else []))
    (steps_upto n).

(** The calls that gradient accumulation is about, values left out. *)
Inductive call : Type :=
| CBackward (epoch : nat) (step : Z)
| CClipGradNorm
| COptimizerStep
| CSchedulerStep
| CZeroGrad
| CIncrement.

Definition accumulation_calls (tr : list event) : list call :=
  omap (fun ev => match ev with
                  | EBackward e s _ => Some (CBackward e s)
                  | EClipGradNorm => Some CClipGradNorm
                  | EOptimizerStep => Some COptimizerStep
                  | ESchedulerStep => Some CSchedulerStep
                  | EZeroGrad => Some CZeroGrad
                  | EGlobalStep _ => Some CIncrement
                  | _ => None
                  end) tr.

(** Each micro-batch is backpropagated; the five calls of an update follow
    it, once and in this order, exactly when [(step + 1) % g == 0]. *)
Definition expected_calls (g : Z) (sites : list (nat * Z)) : list call :=
  flat_map (fun site =>
              CBackward (fst site) (snd site) ::
              (if (snd site + 1) mod g =? 0
               then [CClipGradNorm; COptimizerStep; CSchedulerStep; CZeroGrad;
                     CIncrement]
               else []))
    sites.

(** The events of one optimizer update, in the order of the calls. *)
Definition update_events (gs : Z) : list event :=
  [EClipGradNorm; EOptimizerStep; ESchedulerStep; EZeroGrad; EGlobalStep gs].

(** What the gradient buffers hold, read off the calls: [backward] adds the
    gradient of a micro-batch to the buffers, the two [zero_grad] empty
    them, and [optimizer.step()] uses what they hold.  The state is the
    list of what each [optimizer.step()] used so far, and the micro-batches
    now in the buffers. *)
Definition buffers_step (s : list (list (nat * Z)) * list (nat * Z))
    (ev : event) : list (list (nat * Z)) * list (nat * Z) :=
  match ev with
  | EBackward e i _ => (fst s, snd s ++ [(e, i)])
  | EOptimizerStep => (fst s ++ [snd s], snd s)
  | EZeroGrad | EModelZeroGrad => (fst s, [])
  | _ => s
  end.

Definition buffers (tr : list event)
  : list (list (nat * Z)) * list (nat * Z) :=
  fold_left buffers_step tr ([], []).

(** The micro-batches whose gradients each [optimizer.step()] applied. *)
Definition aggregated (tr : list event) : list (list (nat * Z)) :=
  fst (buffers tr).

(** The micro-batches whose gradients are in the buffers at the end. *)
Definition pending (tr : list event) : list (nat * Z) :=
  snd (buffers tr).

(** The first [k] micro-batches of epoch [e]. *)
Definition first_sites (e : nat) (k : nat) : list (nat * Z) :=
  map (fun i => (e, Z.of_nat i)) (seq 0 k).


(** ** Invariants of the training loop *)

Section Invariants.
Context `{T : Torch}.

(** Before the micro-batch of index [i] of the first epoch, which has
    [len] micro-batches. *)
Definition accumulation_inv (g : Z) (len : nat) (i : Z) (st : Loop) : Prop :=
  0 <= i <= Z.of_nat len
  /\ 0 <= AverageMeter.count (losses st)
  /\ backward_sites (trace st) = first_sites 0 (Z.to_nat i)
  /\ Forall (fun d => d = if 1 <? g then g else 1)
       (backward_divisors (trace st))
  /\ accumulation_calls (trace st) =
       expected_calls g (backward_sites (trace st))
  /\ Forall (fun gr => Z.of_nat (length gr) = g) (aggregated (trace st))
  /\ concat (aggregated (trace st)) ++ pending (trace st) =
       backward_sites (trace st)
  /\ Z.of_nat (length (pending (trace st))) = i mod g.


(** While the loop goes on, and where it is left. *)
Definition schedule_inv (every rank n : Z) (st : Loop) : Prop :=
  0 <= AverageMeter.count (losses st)
  /\ 0 <= global_step st
  /\ step_log (trace st) = expected_step_log every rank (global_step st)
  /\ global_steps (trace st) = steps_upto (global_step st)
  /\ forall k, 0 < k <= global_step st ->
       n <> 0 /\ k mod n <> 0 /\ validation_due every rank k = false.

Definition schedule_post (every rank n : Z) (st : Loop) : Prop :=
  0 <= global_step st
  /\ step_log (trace st) = expected_step_log every rank (global_step st)
  /\ global_steps (trace st) = steps_upto (global_step st)
  /\ (forall k, 0 < k < global_step st ->
        n <> 0 /\ k mod n <> 0 /\ validation_due every rank k = false)
  /\ (0 < global_step st -> n <> 0 -> global_step st mod n = 0 ->
      last (accumulation_calls (trace st)) = Some CIncrement).

(** No validation has returned and nothing was saved. *)
Definition quiet_inv (fs1 : gmap string node) (st : Loop) : Prop :=
  0 <= AverageMeter.count (losses st)
  /\ validations (trace st) = []
  /\ saves (trace st) = []
  /\ best_acc st = 0%Q
  /\ fs st = fs1.

End Invariants.

(** What a run of [train] leaves behind: its step numbers, its step log,
    the returns of [valid], the calls of [save_model], the final
    [global_step] and [best_acc], and how the loop was left. *)
Definition run_digest `{T : Torch} (r : option (result (Loop * result unit)))
  : option (list Z * list (Z * bool) * list (Z * Q) * list (Z * Q) * Z * Q
            * result unit) :=
  match r with
  | Some (Ok (st, out)) =>
      Some (global_steps (trace st), step_log (trace st),
            validations (trace st), saves (trace st), global_step st,
            best_acc st, out)
  | _ => None
  end.

(** What a run leaves behind of gradient accumulation: what each
    [optimizer.step()] applied, what is left in the buffers, the divisors
    of the losses, and how the loop was left. *)
Definition accumulation_digest `{T : Torch}
    (r : option (result (Loop * result unit)))
  : option (list (list (nat * Z)) * list (nat * Z) * list Z * result unit) :=
  match r with
  | Some (Ok (st, out)) =>
      Some (aggregated (trace st), pending (trace st),
            backward_divisors (trace st), out)
  | _ => None
  end.

(** ** A small instance of the library

    Weights are a counter of optimizer steps; a test sample with label [y]
    is classified correctly once the counter has reached [y].  It serves to
    run the script on concrete inputs. *)

Record TinyModel : Type := mkTiny {
  tiny_classes : Z;
  tiny_weights : Z;
  tiny_wrapped : bool
}.

Definition tiny (train_batches : nat -> list (list Z))
    (test_batches : list (list Z)) : Torch := {|
  Model := TinyModel;
  Optimizer := Z;
  Scheduler := Z;
  StateDict := Z;
  Batch := list Z;
  Config := unit;
  CONFIGS := {[ "ViT-B_16" := tt ]};
  VisionTransformer := fun _ _ nc _ _ _ _ => mkTiny nc 0 false;
  load_from := fun m _ => m;
  module_attr := fun m =>
    if tiny_wrapped m then Some (mkTiny (tiny_classes m) (tiny_weights m) false)
    else None;
  model_state_dict := tiny_weights;
  model_load_state_dict := fun m sd => mkTiny (tiny_classes m) sd (tiny_wrapped m);
  optimizer_state_dict := fun o => o;
  optimizer_load_state_dict := fun _ sd => sd;
  scheduler_state_dict := fun s => s;
  scheduler_load_state_dict := fun _ sd => sd;
  SGD := fun _ _ _ => 0;
  WarmupCosineSchedule := fun _ _ _ => 0;
  WarmupLinearSchedule := fun _ _ _ => 0;
  amp_initialize := fun m o => (m, o);
  DDP := fun m => mkTiny (tiny_classes m) (tiny_weights m) true;
  get_loader := fun _ => (train_batches, test_batches);
  labels := fun b => b;
  set_mode := fun _ m => m;
  forward := fun _ _ b => (1%Q, b);
  eval_forward := fun _ m b =>
    (0%Q, map (fun y => if y <=? tiny_weights m then y else 0) b);
  backward := fun _ m _ _ => m;
  clip_grad_norm_ := fun _ m o => (m, o);
  optimizer_step := fun o m =>
    (o + 1, mkTiny (tiny_classes m) (tiny_weights m + 1) (tiny_wrapped m));
  scheduler_step := fun s o => (s + 1, o);
  zero_grad := fun m => m;
  all_reduce_peers := fun _ => [];
  tfevents_name := "events.out.tfevents.0.host.1.0"
|}.

(** Arguments as [argparse] fills them in by default, for a run called
    [run]: dataset [CUB], model [ViT-B_16], output directory [output]. *)
Definition default_args : Args := {|
  name := "run";
  dataset := "CUB";
  model_type := "ViT-B_16";
  pretrained_dir := "./checkpoints/imagenet21k_ViT-B_16.npz";
  output_dir := "output";
  img_size := 400;
  train_batch_size := 4;
  eval_every := 200;
  learning_rate := 3 # 100;
  weight_decay := 0;
  num_steps := 10000;
  decay_type := "cosine";
  warmup_steps := 500;
  max_grad_norm := 1;
  local_rank := -1;
  gradient_accumulation_steps := 1;
  fp16 := false;
  smoothing_value := 0;
  aplly_BE := false;
  contr_loss := false;
  focal_loss := false;
  start_step := 0;
  nprocs := 1;
  test_best_acc := None
|}.

(** [default_args] with the rank and the three periods of the loop set. *)
Definition loop_args (rank g every steps : Z) : Args :=
  mkArgs "run" "CUB" "ViT-B_16" "./checkpoints/imagenet21k_ViT-B_16.npz"
    "output" 400 4 every (3 # 100) 0 steps "cosine" 500 1 rank g false 0
    false false false 0 1 None.

(** The instance without data, for what does not loop. *)
Definition tiny0 : Torch := tiny (fun _ => []) [].

(** Three micro-batches in every epoch, two test samples of which the
    second is out of reach. *)
Definition tiny3 : Torch := tiny (fun _ => [[1]; [1]; [1]]) [[1; 200]].

(** Five micro-batches in every epoch. *)
Definition tiny5 : Torch :=
  tiny (fun _ => [[1]; [1]; [1]; [1]; [1]]) [[1; 200]].

(** A model as [setup] builds it for [CUB]. *)
Definition fresh_model : TinyModel := mkTiny 200 0 false.

(** The arguments of a run that is to resume from a checkpoint
    ([start_step] is 3), with validation after every step and five steps
    in total; a checkpoint written at step 3 with best accuracy 0.9; and
    the arguments as [main] has them after [resume_training]. *)
Definition resume_args : Args :=
  mkArgs "run" "CUB" "ViT-B_16" "./checkpoints/imagenet21k_ViT-B_16.npz"
    "output" 400 4 1 (3 # 100) 0 5 "cosine" 500 1 (-1) 1 false 0
    false false false 3 1 None.

Definition resume_fs : gmap string (@node tiny3) :=
  {[ "output/run_checkpoint.bin" :=
       File (@mkCheckpoint tiny3 3 3 3 3 (9 # 10)%Q resume_args) ]}.

Definition resumed_args : Args :=
  set_test_best_acc (set_start_step resume_args 3) (9 # 10)%Q.

(** ** [utils/data_utils.py]: [get_loader]

    The function builds two transform pipelines, two datasets, two samplers
    and two [DataLoader]s, and synchronizes the processes with barriers.
    What it builds is recorded as data; the calls whose order matters
    (barriers and dataset constructors) are recorded in a trace. *)

Module DataUtils.

Inductive transform : Type :=
| RandomResizedCrop (h w : Z) (scale_lo scale_hi : Q)
| Resize (h w : Z) (bilinear : bool)
| RandomCrop (h w : Z)
| CenterCrop (h w : Z)
| ColorJitter (brightness contrast saturation : Q)
| RandomHorizontalFlip
| AutoAugImageNetPolicy
| ToTensor
| Normalize (mean std : list Q).

(** The constructor calls of the dataset classes of [utils/dataset.py]. *)
Inductive dataset_call : Type :=
| dogs (name root : string) (is_train cropped : bool)
    (transforms : list transform) (download aplly_BE low_memory : bool)
    (img_size : Z)
| CUB (name root : string) (is_train : bool) (transforms : list transform)
    (aplly_BE low_memory : bool) (img_size : Z)
| NABirds (name root : string) (is_train : bool)
    (transforms : list transform) (aplly_BE low_memory : bool) (img_size : Z)
| INat2017 (root split : string) (transforms : list transform).

Inductive sampler : Type :=
| RandomSampler
| SequentialSampler
| DistributedSampler.

Record DataLoader : Type := mkDataLoader {
  dl_dataset : dataset_call;
  dl_sampler : sampler;
  dl_batch_size : Z;
  dl_num_workers : Z;
  dl_pin_memory : bool
}.

(** The attributes of [args] that only [get_loader] reads. *)
Record LoaderOptions : Type := mkLoaderOptions {
  resize_size : Z;
  eval_batch_size : Z;
  num_workers : Z;
  data_root : string;
  low_memory : bool
}.

Inductive loader_event : Type :=
| LBarrier
| LDataset (d : dataset_call).

(** The use of [trainset] when no branch has assigned it. *)
Inductive loader_error : Type :=
| UnboundLocalError (variable : string).

Definition imagenet_mean : list Q :=
  [(485 # 1000)%Q; (456 # 1000)%Q; (406 # 1000)%Q].
Definition imagenet_std : list Q :=
  [(229 # 1000)%Q; (224 # 1000)%Q; (225 # 1000)%Q].

(** The pipelines that the branches for [dogs], [CUB] and [nabirds] each
    spell out, identically: training and test. *)
Definition fine_grained_transforms (args : Args) (opts : LoaderOptions)
  : list transform * list transform :=
  if aplly_BE args then
    ([Resize (img_size args) (img_size args) true;
      ColorJitter (4 # 10)%Q (4 # 10)%Q (4 # 10)%Q;
      ToTensor;
      Normalize imagenet_mean imagenet_std],
     [Resize (img_size args) (img_size args) true;
      ToTensor;
      Normalize imagenet_mean imagenet_std])
  else
    ([Resize (resize_size opts) (resize_size opts) true;
      RandomCrop (img_size args) (img_size args);
      ColorJitter (4 # 10)%Q (4 # 10)%Q (4 # 10)%Q;
      RandomHorizontalFlip;
      ToTensor;
      Normalize imagenet_mean imagenet_std],
     [Resize (resize_size opts) (resize_size opts) true;
      CenterCrop (img_size args) (img_size args);
      ToTensor;
      Normalize imagenet_mean imagenet_std]).

Definition inat_transforms : list transform * list transform :=
  ([Resize 400 400 true;
    RandomCrop 304 304;
    RandomHorizontalFlip;
    AutoAugImageNetPolicy;
    ToTensor;
    Normalize imagenet_mean imagenet_std],
   [Resize 400 400 true;
    CenterCrop 304 304;
    ToTensor;
    Normalize imagenet_mean imagenet_std]).

(** The [if]/[elif] chain on [args.dataset] followed by the separate [if]
    for [INat2017]: the training and the test set, when one was assigned.
    In the [CUB] branch the class is obtained as [eval(args.dataset)], which
    there is [CUB].  The two pipelines that the function builds first
    ([transform_train] and [transform_test], with [RandomResizedCrop]) are
    used by no branch and are left out. *)
Definition build_datasets (args : Args) (opts : LoaderOptions)
  : option (dataset_call * dataset_call) :=
  let '(train_transform, test_transform) := fine_grained_transforms args opts in
  let assigned :=
    if (dataset args =? "dogs")%string then
      Some (dogs (dataset args) (data_root opts) true false train_transform
              false (aplly_BE args) (low_memory opts) (img_size args),
            dogs (dataset args) (data_root opts) false false test_transform
              false (aplly_BE args) (low_memory opts) (img_size args))
    else if (dataset args =? "CUB")%string then
      Some (CUB (dataset args) (data_root opts) true train_transform
              (aplly_BE args) (low_memory opts) (img_size args),
            CUB (dataset args) (data_root opts) false test_transform
              (aplly_BE args) (low_memory opts) (img_size args))
    else if (dataset args =? "nabirds")%string then
      Some (NABirds (dataset args) (data_root opts) true train_transform
              (aplly_BE args) (low_memory opts) (img_size args),
            NABirds (dataset args) (data_root opts) false test_transform
              (aplly_BE args) (low_memory opts) (img_size args))
    else None in
  if (dataset args =? "INat2017")%string then
    Some (INat2017 (data_root opts) "train" (fst inat_transforms),
          INat2017 (data_root opts) "val" (snd inat_transforms))
  else assigned.

(** [get_loader(args)]: the trace of barriers and dataset constructions,
    and the two loaders or the error. *)
Definition get_loader (args : Args) (opts : LoaderOptions)
  : list loader_event * (loader_error + (DataLoader * option DataLoader)) :=
  let trace0 := if is_main_process args then [] else [LBarrier] in
  let datasets := build_datasets args opts in
  let trace1 :=
    trace0 ++ match datasets with
              | Some (trainset, testset) => [LDataset trainset; LDataset testset]
              | None => []
              end in
  let trace2 := trace1 ++ (if local_rank args =? 0 then [LBarrier] else []) in
  match datasets with
  | None => (trace2, inl (UnboundLocalError "trainset"))
  | Some (trainset, testset) =>
      let train_sampler :=
        if local_rank args =? -1 then RandomSampler else DistributedSampler in
      let test_sampler :=
        if local_rank args =? -1 then SequentialSampler else DistributedSampler in
      let train_loader :=
        mkDataLoader trainset train_sampler (train_batch_size args)
          (num_workers opts) true in
      let test_loader :=
        Some (mkDataLoader testset test_sampler (eval_batch_size opts)
                (num_workers opts) true) in
      (trace2, inr (train_loader, test_loader))
  end.

(** Reading a pipeline: the transforms that draw random numbers, and the
    image size that the last resize or crop leaves. *)
Definition is_random (t : transform) : bool :=
  match t with
  | RandomResizedCrop _ _ _ _ | RandomCrop _ _ | ColorJitter _ _ _
  | RandomHorizontalFlip | AutoAugImageNetPolicy => true
  | _ => false
  end.

Definition resized_to (t : transform) : option (Z * Z) :=
  match t with
  | RandomResizedCrop h w _ _ | Resize h w _ | RandomCrop h w
  | CenterCrop h w => Some (h, w)
  | _ => None
  end.

Definition output_size (pipeline : list transform) : option (Z * Z) :=
  last (omap resized_to pipeline).

Definition transforms_of (d : dataset_call) : list transform :=
  match d with
  | dogs _ _ _ _ t _ _ _ _ => t
  | CUB _ _ _ t _ _ _ => t
  | NABirds _ _ _ t _ _ _ => t
  | INat2017 _ _ t => t
  end.

Definition known_dataset (d : string) : bool :=
  (d =? "dogs")%string || (d =? "CUB")%string || (d =? "nabirds")%string
  || (d =? "INat2017")%string.

End DataUtils.

(** * Properties *)

(** ** [AverageMeter] *)

Lemma update_ok (m : AverageMeter.t) (v : Q) (n : Z) :
  AverageMeter.count m + n <> 0 ->
  AverageMeter.update m v n =
    Ok (AverageMeter.mk v
          ((AverageMeter.sum m + v * inject_Z n)
             / inject_Z (AverageMeter.count m + n))%Q
          (AverageMeter.sum m + v * inject_Z n)%Q
          (AverageMeter.count m + n)).
Proof.
  intros Hc. unfold AverageMeter.update.
  destruct (Z.eqb_spec (AverageMeter.count m + n) 0) as [E|_]; [contradiction|].
  reflexivity.
Qed.

(** An update that counts one sample on a meter whose count is not negative
    never divides by zero: the case of every call in [train] and [valid]. *)
Lemma update_one_ok (m : AverageMeter.t) (v : Q) :
  0 <= AverageMeter.count m ->
  exists m', AverageMeter.update m v 1 = Ok m'
             /\ AverageMeter.count m' = AverageMeter.count m + 1.
Proof.
  intros Hc. rewrite update_ok by lia. eexists; split; reflexivity.
Qed.


(** *** The meter on binary64 floats *)

Lemma float_of_int_ok (n : Z) (f : PrimFloat.float) :
  AverageMeter64.float_of_int n = Ok f -> f = AverageMeter64.to_float n.
Proof.
  unfold AverageMeter64.float_of_int.
  destruct (AverageMeter64.nearest n); intros H; try discriminate;
    injection H as <-; reflexivity.
Qed.

Lemma update64_ok (m : AverageMeter64.t) (v : PrimFloat.float) (n : Z)
    (fn fc : PrimFloat.float) :
  AverageMeter64.float_of_int n = Ok fn ->
  AverageMeter64.float_of_int (AverageMeter64.count m + n) = Ok fc ->
  AverageMeter64.count m + n <> 0 ->
  AverageMeter64.update m v n =
    Ok (AverageMeter64.mk v
          (PrimFloat.div
             (PrimFloat.add (AverageMeter64.sum m)
                (PrimFloat.mul v (AverageMeter64.to_float n)))
             (AverageMeter64.to_float (AverageMeter64.count m + n)))
          (PrimFloat.add (AverageMeter64.sum m)
             (PrimFloat.mul v (AverageMeter64.to_float n)))
          (AverageMeter64.count m + n)).
Proof.
  intros Hn Hc Hz. unfold AverageMeter64.update.
  rewrite Hn, Hc. cbn [mbind result_bind].
  apply float_of_int_ok in Hn, Hc. subst fn fc.
  destruct (Z.eqb_spec (AverageMeter64.count m + n) 0) as [E|_];
    [contradiction|].
  reflexivity.
Qed.

Lemma updates64_from (calls : list (PrimFloat.float * Z)) :
  forall m : AverageMeter64.t,
    AverageMeter64.defined (AverageMeter64.count m) calls = true ->
    exists m',
      AverageMeter64.updates m calls = Ok m'
      /\ AverageMeter64.count m' =
           AverageMeter64.count m + AverageMeter64.total_count calls
      /\ AverageMeter64.sum m' =
           AverageMeter64.float_sum (AverageMeter64.sum m) calls
      /\ (calls <> [] ->
          Some (AverageMeter64.val m') = AverageMeter64.last_val calls
          /\ AverageMeter64.count m' <> 0
          /\ AverageMeter64.float_of_int (AverageMeter64.count m') =
               Ok (AverageMeter64.to_float (AverageMeter64.count m'))
          /\ AverageMeter64.avg m' =
               PrimFloat.div (AverageMeter64.sum m')
                 (AverageMeter64.to_float (AverageMeter64.count m'))).
Proof.
  induction calls as [|[v n] rest IH]; intros m Hd.
  - exists m. cbn. split; [reflexivity|]. split; [lia|].
    split; [reflexivity|]. intros H; contradiction.
  - cbn [AverageMeter64.defined] in Hd.
    destruct (AverageMeter64.float_of_int n) as [fn|] eqn:Hn;
      [|discriminate].
    destruct (AverageMeter64.float_of_int (AverageMeter64.count m + n))
      as [fc|] eqn:Hc; [|discriminate].
    apply andb_prop in Hd as [Hz Hrest].
    apply negb_true_iff in Hz. apply Z.eqb_neq in Hz.
    cbn [AverageMeter64.updates].
    rewrite (update64_ok m v n fn fc Hn Hc Hz). cbn [mbind result_bind].
    set (m1 := AverageMeter64.mk v _ _ _).
    destruct (IH m1 Hrest) as (m' & Hrun & Hcount & Hsum & Hlast).
    exists m'. subst m1. cbn in Hcount, Hsum. split; [exact Hrun|].
    split; [unfold AverageMeter64.total_count in *; cbn; lia|].
    split; [exact Hsum|].
    intros _. destruct rest as [|c rest'].
    + cbn in Hrun. injection Hrun as <-. cbn.
      split; [reflexivity|]. split; [exact Hz|].
      split; [|reflexivity].
      rewrite Hc. f_equal. apply float_of_int_ok. exact Hc.
    + destruct Hlast as (Hl & Hnz & Hconv & Ha); [discriminate|].
      repeat split; [|exact Hnz|exact Hconv|exact Ha].
      rewrite Hl. unfold AverageMeter64.last_val. reflexivity.
Qed.

(** C9, as it holds on floats.  [reset] sets [val], [avg], [sum] and
    [count] to 0; after a non-empty sequence of [update(val_i, n_i)] calls
    that follows a reset and in which no call raises, [count] is the sum
    of the [n_i], [val] is the last [val_i], [sum] is what adding up the
    products [val_i * n_i] in binary64, in the order of the calls, gives,
    and [avg] is the binary64 quotient of [sum] by [count]. *)
Theorem average_meter_invariant (c : PrimFloat.float * Z)
    (calls : list (PrimFloat.float * Z)) :
  AverageMeter64.defined 0 (c :: calls) = true ->
  AverageMeter64.reset =
    AverageMeter64.mk PrimFloat.zero PrimFloat.zero PrimFloat.zero 0
  /\ exists m,
       AverageMeter64.updates AverageMeter64.reset (c :: calls) = Ok m
       /\ AverageMeter64.count m = AverageMeter64.total_count (c :: calls)
       /\ AverageMeter64.count m <> 0
       /\ AverageMeter64.sum m =
            AverageMeter64.float_sum PrimFloat.zero (c :: calls)
       /\ Some (AverageMeter64.val m) = AverageMeter64.last_val (c :: calls)
       /\ AverageMeter64.avg m =
            PrimFloat.div (AverageMeter64.sum m)
              (AverageMeter64.to_float (AverageMeter64.count m)).
Proof.
  intros Hd. split; [reflexivity|].
  destruct (updates64_from (c :: calls) AverageMeter64.reset Hd)
    as (m & Hrun & Hcount & Hsum & Hlast).
  destruct Hlast as (Hl & Hc & _ & Ha); [discriminate|].
  exists m. split; [exact Hrun|].
  split; [cbn [AverageMeter64.count AverageMeter64.reset] in Hcount; lia|].
  split; [exact Hc|]. split; [exact Hsum|]. split; [exact Hl | exact Ha].
Qed.

Lemma average_meter_invariant_witness :
  exists m,
    AverageMeter64.updates AverageMeter64.reset
      [(AverageMeter64.tenth, 1); (AverageMeter64.fifth, 3)] = Ok m
    /\ AverageMeter64.count m = 4
    /\ AverageMeter64.sum m =
         AverageMeter64.float_sum PrimFloat.zero
           [(AverageMeter64.tenth, 1); (AverageMeter64.fifth, 3)]
    /\ Some (AverageMeter64.val m) = Some AverageMeter64.fifth.
Proof.
  destruct (average_meter_invariant (AverageMeter64.tenth, 1)
              [(AverageMeter64.fifth, 3)])
    as (_ & m & Hrun & Hcount & _ & Hsum & Hval & _).
  - vm_compute. reflexivity.
  - exists m. split; [exact Hrun|]. split; [exact Hcount|].
    split; [exact Hsum | exact Hval].
Defined.

(** The product [avg * count] need not give [sum] back: after
    [update(0.1)], [update(0.2)], [update(0.6)] on a fresh meter, [sum] is
    0.9000000000000000222 and [avg * 3] is 0.8999999999999999112. *)
Lemma average_meter_product_counterexample :
  exists m,
    AverageMeter64.updates AverageMeter64.reset
      [(AverageMeter64.tenth, 1); (AverageMeter64.fifth, 1);
       (AverageMeter64.three_fifths, 1)] = Ok m
    /\ AverageMeter64.count m = 3
    /\ PrimFloat.eqb
         (PrimFloat.mul (AverageMeter64.avg m)
            (AverageMeter64.to_float (AverageMeter64.count m)))
         (AverageMeter64.sum m) = false
    /\ PrimFloat.ltb
         (PrimFloat.mul (AverageMeter64.avg m)
            (AverageMeter64.to_float (AverageMeter64.count m)))
         (AverageMeter64.sum m) = true.
Proof.
  eexists. split; [vm_compute; reflexivity|].
  split; [reflexivity|]. split; vm_compute; reflexivity.
Qed.

(** The calls return exactly when [defined] holds. *)
Lemma updates64_return_only_if (calls : list (PrimFloat.float * Z)) :
  forall m m', AverageMeter64.updates m calls = Ok m' ->
               AverageMeter64.defined (AverageMeter64.count m) calls = true.
Proof.
  induction calls as [|[v n] rest IH]; intros m m' Hrun; [reflexivity|].
  cbn [AverageMeter64.updates] in Hrun. unfold AverageMeter64.update in Hrun.
  cbn [AverageMeter64.defined].
  destruct (AverageMeter64.float_of_int n) as [fn|]; [|discriminate].
  cbn [mbind result_bind] in Hrun.
  destruct (AverageMeter64.float_of_int (AverageMeter64.count m + n))
    as [fc|]; [|discriminate].
  cbn [mbind result_bind] in Hrun.
  destruct (Z.eqb_spec (AverageMeter64.count m + n) 0) as [E|N];
    [discriminate|].
  cbn [mbind result_bind] in Hrun. apply IH in Hrun. exact Hrun.
Qed.

(** ** Checkpoints: [save_model] and [resume_training] *)

Example checkpoint_path_default :
  checkpoint_path default_args = "output/run_checkpoint.bin".
Proof. reflexivity. Qed.

Lemma prefix_slash_cons (c : Ascii.ascii) (r r' : string) :
  String.prefix "/" (String c r) = String.prefix "/" (String c r').
Proof.
  cbn [String.prefix]. destruct (Ascii.ascii_dec _ c); [|reflexivity].
  destruct r, r'; reflexivity.
Qed.

Lemma prefix_slash_append (n s : string) :
  String.prefix "/" n = false -> String.prefix "/" s = false ->
  String.prefix "/" (n +:+ s) = false.
Proof.
  destruct n as [|c n]; intros Hn Hs; [exact Hs|].
  change (String c n +:+ s) with (String c (n +:+ s)).
  transitivity (String.prefix "/" (String c n)); [|exact Hn].
  apply prefix_slash_cons.
Qed.

(** [os.path.join] of a directory that is not empty and does not end in a
    slash with a relative file name puts one slash between them. *)
Lemma os_path_join_plain (dir file : string) :
  dir <> "" -> ends_with_slash dir = false -> String.prefix "/" file = false ->
  os_path_join dir file = dir +:+ "/" +:+ file.
Proof.
  intros Hd He Hf. unfold os_path_join. rewrite Hf, He.
  apply String.eqb_neq in Hd. rewrite Hd. reflexivity.
Qed.

Section CheckpointProperties.
Context `{T : Torch}.

Implicit Types (fs : gmap string node) (args : Args) (model : Model)
  (optimizer : Optimizer) (scheduler : Scheduler).

(** The path depends on [output_dir] and [name] only. *)
Lemma checkpoint_path_ext args args' :
  output_dir args' = output_dir args -> name args' = name args ->
  checkpoint_path args' = checkpoint_path args.
Proof. intros Hd Hn. unfold checkpoint_path. rewrite Hd, Hn. reflexivity. Qed.

Lemma checkpoint_path_plain args :
  output_dir args <> "" -> ends_with_slash (output_dir args) = false ->
  String.prefix "/" (name args) = false ->
  checkpoint_path args =
    output_dir args +:+ "/" +:+ name args +:+ "_checkpoint.bin".
Proof.
  intros Hd He Hn. unfold checkpoint_path.
  apply os_path_join_plain; [exact Hd | exact He |].
  apply prefix_slash_append; [exact Hn | reflexivity].
Qed.

(** [save_model] touches no other path. *)
Lemma save_model_frame fs args model optimizer scheduler s a (p : string) :
  p <> checkpoint_path args ->
  save_model fs args model optimizer scheduler s a !! p = fs !! p.
Proof. intros Hp. unfold save_model. apply lookup_insert_ne. congruence. Qed.

Lemma save_model_lookup fs args model optimizer scheduler s a :
  save_model fs args model optimizer scheduler s a !! checkpoint_path args =
    Some (File {|
      ck_model_state_dict :=
        model_state_dict (default model (module_attr model));
      ck_optimizer_state_dict := optimizer_state_dict optimizer;
      ck_scheduler_state_dict := scheduler_state_dict scheduler;
      ck_global_step := s;
      ck_test_best_acc := a;
      ck_args := args |}).
Proof.
  assert (Hm : (match module_attr model with Some m => m | None => model end)
               = default model (module_attr model))
    by (destruct (module_attr model); reflexivity).
  unfold save_model. rewrite lookup_insert_eq, Hm. reflexivity.
Qed.

(** C6. Every call of [save_model] leaves at the path
    [os.path.join(output_dir, name + "_checkpoint.bin")], which is
    [output_dir/<name>_checkpoint.bin] for a plain directory and run name,
    a file that holds the state of the model (of [model.module] when the
    model has that attribute), the state of the optimizer, the state of
    the scheduler, the step counter and the best-accuracy scalar it was
    given; it writes nowhere else. *)
Theorem save_model_writes fs args model optimizer scheduler (s : Z) (a : Q) :
  let path := os_path_join (output_dir args) (name args +:+ "_checkpoint.bin") in
  let fs' := save_model fs args model optimizer scheduler s a in
  fs' !! path =
    Some (File {|
      ck_model_state_dict :=
        model_state_dict
          (match module_attr model with Some m => m | None => model end);
      ck_optimizer_state_dict := optimizer_state_dict optimizer;
      ck_scheduler_state_dict := scheduler_state_dict scheduler;
      ck_global_step := s;
      ck_test_best_acc := a;
      ck_args := args |})
  /\ isfile fs' path = true
  /\ (forall p : string, p <> path -> fs' !! p = fs !! p)
  /\ (output_dir args <> "" -> ends_with_slash (output_dir args) = false ->
      String.prefix "/" (name args) = false ->
      path = output_dir args +:+ "/" +:+ name args +:+ "_checkpoint.bin").
Proof.
  intros path fs'.
  change path with (checkpoint_path args). subst fs'.
  pose proof (save_model_lookup fs args model optimizer scheduler s a) as Hw.
  assert (Hm : default model (module_attr model) =
               match module_attr model with Some m => m | None => model end)
    by (destruct (module_attr model); reflexivity).
  rewrite Hm in Hw.
  split; [exact Hw|].
  split; [unfold isfile; rewrite Hw; reflexivity|].
  split; [intros p Hp; apply save_model_frame; exact Hp|].
  apply checkpoint_path_plain.
Qed.

(** What [resume_training] does with the file it finds. *)
Lemma resume_training_found fs args model optimizer scheduler c :
  fs !! checkpoint_path args = Some (File c) ->
  resume_training fs args model optimizer scheduler =
    Ok (set_start_step args (ck_global_step c),
        model_load_state_dict model (ck_model_state_dict c),
        optimizer_load_state_dict optimizer (ck_optimizer_state_dict c),
        scheduler_load_state_dict scheduler (ck_scheduler_state_dict c),
        ck_test_best_acc c).
Proof. intros Hc. unfold resume_training. rewrite Hc. reflexivity. Qed.

Lemma resume_training_missing fs args model optimizer scheduler :
  isfile fs (checkpoint_path args) = false ->
  resume_training fs args model optimizer scheduler =
    Raise (FileNotFoundError
             ("No checkpoint found at " +:+ checkpoint_path args)).
Proof.
  unfold isfile, resume_training.
  destruct (fs !! checkpoint_path args) as [[c| |]|]; [discriminate| | |];
    reflexivity.
Qed.

(** C3. After [save_model(args, model, optimizer, scheduler, s, a)], a
    [resume_training] with the same [output_dir] and [name] does not
    raise, returns [a] as [test_best_acc] and has set [args.start_step]
    to [s]. *)
Theorem checkpoint_round_trip fs args model optimizer scheduler (s : Z)
    (a : Q) args' model' optimizer' scheduler' :
  output_dir args' = output_dir args ->
  name args' = name args ->
  exists m o sch args'',
    resume_training (save_model fs args model optimizer scheduler s a)
      args' model' optimizer' scheduler' = Ok (args'', m, o, sch, a)
    /\ start_step args'' = s
    /\ args'' = set_start_step args' s
    /\ m = model_load_state_dict model'
             (model_state_dict (default model (module_attr model)))
    /\ o = optimizer_load_state_dict optimizer'
             (optimizer_state_dict optimizer)
    /\ sch = scheduler_load_state_dict scheduler'
               (scheduler_state_dict scheduler).
Proof.
  intros Hd Hn.
  pose proof (save_model_lookup fs args model optimizer scheduler s a) as Hw.
  rewrite <- (checkpoint_path_ext args args' Hd Hn) in Hw.
  rewrite (resume_training_found _ _ _ _ _ _ Hw). cbn.
  do 4 eexists. split; [reflexivity|]. repeat split; reflexivity.
Qed.

(** C4. [resume_training] raises [FileNotFoundError] exactly when there
    is no file at [os.path.join(output_dir, name + "_checkpoint.bin")],
    which is [output_dir/<name>_checkpoint.bin] for a plain directory and
    run name, and then the message names that path; it raises nothing
    else; when there is a file it returns, without raising, the model,
    optimizer and scheduler with the stored states loaded, and the stored
    best accuracy. *)
Theorem resume_training_file_check fs args model optimizer scheduler :
  let path := os_path_join (output_dir args) (name args +:+ "_checkpoint.bin") in
  (isfile fs path = false <->
   resume_training fs args model optimizer scheduler =
     Raise (FileNotFoundError ("No checkpoint found at " +:+ path)))
  /\ (isfile fs path = false <->
      exists e, resume_training fs args model optimizer scheduler = Raise e)
  /\ (isfile fs path = true <->
      exists c,
        fs !! path = Some (File c)
        /\ resume_training fs args model optimizer scheduler =
             Ok (set_start_step args (ck_global_step c),
                 model_load_state_dict model (ck_model_state_dict c),
                 optimizer_load_state_dict optimizer
                   (ck_optimizer_state_dict c),
                 scheduler_load_state_dict scheduler
                   (ck_scheduler_state_dict c),
                 ck_test_best_acc c))
  /\ (output_dir args <> "" -> ends_with_slash (output_dir args) = false ->
      String.prefix "/" (name args) = false ->
      path = output_dir args +:+ "/" +:+ name args +:+ "_checkpoint.bin").
Proof.
  intros path. change path with (checkpoint_path args). clear path.
  split; [|split; [|split]]; [| | |apply checkpoint_path_plain].
  - destruct (isfile fs (checkpoint_path args)) eqn:Hf.
    + split; [discriminate|]. intros Hr. exfalso.
      unfold isfile in Hf.
      destruct (fs !! checkpoint_path args) as [[c| |]|] eqn:Hc;
        try discriminate.
      rewrite (resume_training_found fs args model optimizer scheduler c Hc)
        in Hr. discriminate.
    + split; [|reflexivity]. intros _.
      apply resume_training_missing. exact Hf.
  - destruct (isfile fs (checkpoint_path args)) eqn:Hf.
    + split; [discriminate|]. intros [e Hr]. exfalso.
      unfold isfile in Hf.
      destruct (fs !! checkpoint_path args) as [[c| |]|] eqn:Hc;
        try discriminate.
      rewrite (resume_training_found fs args model optimizer scheduler c Hc)
        in Hr. discriminate.
    + split; [|reflexivity]. intros _. eexists.
      apply resume_training_missing. exact Hf.
  - split.
    + intros Hf. unfold isfile in Hf.
      destruct (fs !! checkpoint_path args) as [[c| |]|] eqn:Hc;
        try discriminate.
      exists c. split; [reflexivity|].
      apply resume_training_found. exact Hc.
    + intros (c & Hc & _). unfold isfile. rewrite Hc. reflexivity.
Qed.

(** Only the latest checkpoint of a run is kept: a second [save_model]
    for the same output directory and name replaces the file of the first,
    so that the file system is as if the first had never happened, and a
    following [resume_training] returns the step and the accuracy of the
    second. *)
Theorem save_model_overwrites fs args model optimizer scheduler (s : Z)
    (a : Q) args2 model2 optimizer2 scheduler2 (s2 : Z) (a2 : Q)
    model' optimizer' scheduler' :
  output_dir args2 = output_dir args ->
  name args2 = name args ->
  save_model (save_model fs args model optimizer scheduler s a)
    args2 model2 optimizer2 scheduler2 s2 a2 =
    save_model fs args2 model2 optimizer2 scheduler2 s2 a2
  /\ exists m o sch,
       resume_training
         (save_model (save_model fs args model optimizer scheduler s a)
            args2 model2 optimizer2 scheduler2 s2 a2)
         args model' optimizer' scheduler' =
         Ok (set_start_step args s2, m, o, sch, a2).
Proof.
  intros Hd Hn.
  pose proof (checkpoint_path_ext args args2 Hd Hn) as Hp.
  assert (Hsame : save_model (save_model fs args model optimizer scheduler s a)
                    args2 model2 optimizer2 scheduler2 s2 a2 =
                  save_model fs args2 model2 optimizer2 scheduler2 s2 a2).
  { unfold save_model. rewrite Hp. apply insert_insert_eq. }
  split; [exact Hsame|]. rewrite Hsame.
  pose proof (save_model_lookup fs args2 model2 optimizer2 scheduler2 s2 a2)
    as Hw.
  rewrite Hp in Hw.
  rewrite (resume_training_found _ _ _ _ _ _ Hw). cbn.
  eexists _, _, _. reflexivity.
Qed.

End CheckpointProperties.

Lemma save_model_writes_witness :
  save_model (T := tiny0) ∅ default_args (mkTiny 200 7 true) 3 4 120 (9 # 10)%Q
    !! "output/run_checkpoint.bin" =
    Some (File (@mkCheckpoint tiny0 7 3 4 120 (9 # 10)%Q default_args))
  /\ save_model (T := tiny0) ∅ default_args (mkTiny 200 7 true) 3 4 120
       (9 # 10)%Q !! "output/run_checkpoint" = None.
Proof.
  destruct (save_model_writes (T := tiny0) ∅ default_args (mkTiny 200 7 true)
              3 4 120 (9 # 10)%Q) as (Hw & _ & Hframe & Hpath).
  split; [exact Hw|].
  rewrite (Hframe "output/run_checkpoint"); [reflexivity | discriminate].
Defined.

Lemma checkpoint_round_trip_witness :
  exists m o sch args'',
    resume_training (T := tiny0)
      (save_model (T := tiny0) ∅ default_args (mkTiny 200 7 true) 3 4 120 (9 # 10)%Q)
      default_args (mkTiny 200 0 false) 0 0 = Ok (args'', m, o, sch, (9 # 10)%Q)
    /\ start_step args'' = 120
    /\ m = mkTiny 200 7 false.
Proof.
  destruct (checkpoint_round_trip (T := tiny0)
              ∅ default_args (mkTiny 200 7 true) 3 4 120 (9 # 10)%Q
              default_args (mkTiny 200 0 false) 0 0 eq_refl eq_refl)
    as (m & o & sch & args'' & Hr & Hs & _ & Hm & _).
  exists m, o, sch, args''. split; [exact Hr|]. split; [exact Hs | exact Hm].
Defined.

(** With a checkpoint at [output/run_checkpoint.bin] the call returns what
    the file holds; with the file under any other name it raises. *)
Lemma resume_training_file_check_witness :
  resume_training (T := tiny0)
    {[ "output/run_checkpoint.bin" :=
         File (@mkCheckpoint tiny0 7 3 4 120 (9 # 10)%Q default_args) ]}
    default_args (mkTiny 200 0 false) 0 0 =
    Ok (set_start_step default_args 120, mkTiny 200 7 false, 3, 4, (9 # 10)%Q)
  /\ resume_training (T := tiny0)
       {[ "output/run.bin" :=
            File (@mkCheckpoint tiny0 7 3 4 120 (9 # 10)%Q default_args) ]}
       default_args (mkTiny 200 0 false) 0 0 =
       Raise (FileNotFoundError
                "No checkpoint found at output/run_checkpoint.bin").
Proof.
  split.
  - destruct (resume_training_file_check (T := tiny0)
                {[ "output/run_checkpoint.bin" :=
                     File (@mkCheckpoint tiny0 7 3 4 120 (9 # 10)%Q
                             default_args) ]}
                default_args (mkTiny 200 0 false) 0 0)
      as (_ & _ & [Hfound _] & _).
    destruct (Hfound eq_refl) as (c & Hc & Hr).
    rewrite Hr. injection Hc as <-. reflexivity.
  - apply (resume_training_file_check (T := tiny0)
             {[ "output/run.bin" :=
                  File (@mkCheckpoint tiny0 7 3 4 120 (9 # 10)%Q
                          default_args) ]}
             default_args (mkTiny 200 0 false) 0 0).
    reflexivity.
Defined.

Lemma save_model_overwrites_witness :
  exists m o sch,
    resume_training (T := tiny0)
      (save_model (T := tiny0)
         (save_model (T := tiny0) ∅ default_args fresh_model 1 1 10 (1 # 2)%Q)
         default_args (mkTiny 200 7 false) 2 2 20 (3 # 4)%Q)
      default_args fresh_model 0 0 =
      Ok (set_start_step default_args 20, m, o, sch, (3 # 4)%Q).
Proof.
  exact (proj2 (save_model_overwrites (T := tiny0) ∅ default_args fresh_model
                  1 1 10 (1 # 2)%Q default_args (mkTiny 200 7 false) 2 2 20
                  (3 # 4)%Q fresh_model 0 0 eq_refl eq_refl)).
Defined.

(** ** [setup] *)

Lemma dataset_num_classes_unknown (d : string) :
  d <> "dogs" -> d <> "CUB" -> d <> "nabirds" -> d <> "INat2017" ->
  dataset_num_classes d =
    Raise (Exception ("Unknown dataset " +:+ dquote +:+ d +:+ dquote)).
Proof.
  intros H1 H2 H3 H4. unfold dataset_num_classes.
  apply String.eqb_neq in H1, H2, H3, H4. rewrite H1, H2, H3, H4. reflexivity.
Qed.

Section SetupProperties.
Context `{T : Torch}.

(** C5. For a model type that [CONFIGS] knows, [setup] raises the
    exception that names the dataset when [args.dataset] is none of
    [dogs], [CUB], [nabirds] and [INat2017]; for these four it does not
    raise and builds the model with 120, 200, 555 and 5089 classes. *)
Theorem setup_dataset_dispatch (args : Args) (config : Config) :
  CONFIGS !! model_type args = Some config ->
  let build num_classes :=
    load_from
      (VisionTransformer config (img_size args) num_classes
         (smoothing_value args) (dataset args) (contr_loss args)
         (focal_loss args))
      (pretrained_dir args) in
  (dataset args <> "dogs" -> dataset args <> "CUB" ->
   dataset args <> "nabirds" -> dataset args <> "INat2017" ->
   setup args =
     Raise (Exception
              ("Unknown dataset " +:+ dquote +:+ dataset args +:+ dquote)))
  /\ (dataset args = "dogs" -> setup args = Ok (args, build 120))
  /\ (dataset args = "CUB" -> setup args = Ok (args, build 200))
  /\ (dataset args = "nabirds" -> setup args = Ok (args, build 555))
  /\ (dataset args = "INat2017" -> setup args = Ok (args, build 5089)).
Proof.
  intros Hc build. subst build. cbn beta.
  unfold setup. rewrite Hc. cbn [mbind result_bind].
  split; [|repeat split]; intros H.
  - intros H2 H3 H4.
    rewrite (dataset_num_classes_unknown _ H H2 H3 H4). reflexivity.
  - rewrite H. reflexivity.
  - rewrite H. reflexivity.
  - rewrite H. reflexivity.
  - rewrite H. reflexivity.
Qed.

End SetupProperties.

Lemma setup_dataset_dispatch_witness :
  setup (T := tiny0) default_args =
    Ok (default_args, mkTiny 200 0 false)
  /\ setup (T := tiny0)
       (mkArgs "run" "cars" "ViT-B_16" "w.npz" "output" 400 4 200 (3 # 100) 0
          10000 "cosine" 500 1 (-1) 1 false 0 false false false 0 1 None) =
     Raise (Exception ("Unknown dataset " +:+ dquote +:+ "cars" +:+ dquote)).
Proof.
  split.
  - apply (setup_dataset_dispatch (T := tiny0)
             default_args tt eq_refl).
    reflexivity.
  - apply (setup_dataset_dispatch (T := tiny0)
             (mkArgs "run" "cars" "ViT-B_16" "w.npz" "output" 400 4 200
                (3 # 100) 0 10000 "cosine" 500 1 (-1) 1 false 0 false false
                false 0 1 None) tt eq_refl); discriminate.
Defined.

(** ** [reduce_mean] *)

Lemma tensor_add_lookup (x p : list Q) (i : nat) (xi : Q) :
  length p = length x -> x !! i = Some xi ->
  exists pi, p !! i = Some pi /\ tensor_add x p !! i = Some (xi + pi)%Q.
Proof.
  intros Hlen Hx.
  assert (Hi : (i < length p)%nat)
    by (rewrite Hlen; eapply lookup_lt_Some; exact Hx).
  destruct (lookup_lt_is_Some_2 p i Hi) as [pi Hp].
  exists pi. split; [exact Hp|].
  unfold tensor_add. rewrite lookup_zip_with, Hx. cbn. rewrite Hp. reflexivity.
Qed.

Lemma tensor_add_length (x p : list Q) :
  length p = length x -> length (tensor_add x p) = length x.
Proof. intros Hlen. unfold tensor_add. rewrite length_zip_with. lia. Qed.

Lemma all_reduce_lookup (peers : list (list Q)) :
  forall x : list Q,
    Forall (fun p => length p = length x) peers ->
    length (fold_left tensor_add peers x) = length x
    /\ forall i xi, x !! i = Some xi ->
         exists yi, fold_left tensor_add peers x !! i = Some yi
                    /\ (yi == sum_at i (x :: peers))%Q.
Proof.
  induction peers as [|p ps IH]; intros x Hall.
  - split; [reflexivity|]. intros i xi Hx. exists xi. split; [exact Hx|].
    cbn. rewrite Hx. cbn. ring.
  - apply Forall_cons in Hall as [Hp Hps].
    assert (Hps' : Forall (fun q => length q = length (tensor_add x p)) ps).
    { rewrite (tensor_add_length x p Hp). exact Hps. }
    destruct (IH (tensor_add x p) Hps') as [Hlen Hval].
    split; [cbn; rewrite Hlen; apply tensor_add_length; exact Hp|].
    intros i xi Hx.
    destruct (tensor_add_lookup x p i xi Hp Hx) as (pi & Hpi & Hadd).
    destruct (Hval i _ Hadd) as (yi & Hy & Heq).
    exists yi. split; [exact Hy|].
    rewrite Heq. cbn. rewrite Hadd, Hx, Hpi. cbn. ring.
Qed.

(** C10. [reduce_mean(tensor, nprocs)] leaves its argument, and every
    other tensor there was, unchanged: the result is a new tensor, which
    holds at each coordinate the sum over all processes divided by
    [nprocs].  (All processes contribute tensors of one shape; [nprocs] is
    not zero, division by zero being where rationals and floats part.) *)
Theorem reduce_mean_spec (peers : list (list Q)) (heap : gmap nat (list Q))
    (tensor : nat) (x : list Q) (nprocs : Z) :
  heap !! tensor = Some x ->
  Forall (fun p => length p = length x) peers ->
  nprocs <> 0 ->
  exists heap' rt y,
    reduce_mean peers heap tensor nprocs = (heap', rt)
    /\ rt <> tensor
    /\ heap' !! tensor = Some x
    /\ (forall l, l <> rt -> heap' !! l = heap !! l)
    /\ heap !! rt = None
    /\ heap' !! rt = Some y
    /\ length y = length x
    /\ forall i xi, x !! i = Some xi ->
         exists yi, y !! i = Some yi
                    /\ (yi == sum_at i (x :: peers) / inject_Z nprocs)%Q.
Proof.
  intros Hx Hall _.
  pose proof (is_fresh (dom heap)) as Hfresh.
  apply not_elem_of_dom in Hfresh.
  set (rt := fresh (dom heap)) in *.
  assert (Hne : rt <> tensor) by (intros ->; congruence).
  destruct (all_reduce_lookup peers x Hall) as [Hlen Hval].
  exists (idiv (all_reduce_sum peers (<[rt := x]> heap) rt) rt nprocs), rt,
    (map (fun q => (q / inject_Z nprocs)%Q) (fold_left tensor_add peers x)).
  split.
  { unfold reduce_mean, clone. fold rt. rewrite Hx. reflexivity. }
  split; [exact Hne|].
  assert (Hother : forall l, l <> rt ->
            idiv (all_reduce_sum peers (<[rt := x]> heap) rt) rt nprocs !! l
            = heap !! l).
  { intros l Hl. unfold idiv, all_reduce_sum.
    rewrite !lookup_alter_ne by congruence.
    apply lookup_insert_ne. congruence. }
  split; [rewrite Hother by congruence; exact Hx|].
  split; [exact Hother|]. split; [exact Hfresh|].
  split.
  { unfold idiv, all_reduce_sum.
    rewrite !lookup_alter_eq, lookup_insert_eq. reflexivity. }
  split; [rewrite length_map; exact Hlen|].
  intros i xi Hi. destruct (Hval i xi Hi) as (yi & Hy & Heq).
  exists (yi / inject_Z nprocs)%Q. split.
  - rewrite list_lookup_fmap_Some_2 with (x := yi); [reflexivity | exact Hy].
  - rewrite Heq. reflexivity.
Qed.

Lemma reduce_mean_spec_witness :
  exists heap' rt y,
    reduce_mean [[(1 # 2)%Q; 1%Q]; [1%Q; 1%Q]]
      {[ 5%nat := [1%Q; (2 # 3)%Q] ]} 5%nat 3 = (heap', rt)
    /\ heap' !! 5%nat = Some [1%Q; (2 # 3)%Q]
    /\ heap' !! rt = Some y
    /\ exists y0, y !! 0%nat = Some y0 /\ (y0 == 5 # 6)%Q.
Proof.
  destruct (reduce_mean_spec [[(1 # 2)%Q; 1%Q]; [1%Q; 1%Q]]
              {[ 5%nat := [1%Q; (2 # 3)%Q] ]} 5%nat [1%Q; (2 # 3)%Q] 3)
    as (heap' & rt & y & Hr & _ & Hin & _ & _ & Hout & _ & Hval).
  - reflexivity.
  - repeat constructor.
  - discriminate.
  - exists heap', rt, y. split; [exact Hr|]. split; [exact Hin|].
    split; [exact Hout|].
    destruct (Hval 0%nat 1%Q eq_refl) as (y0 & Hy0 & Heq).
    exists y0. split; [exact Hy0|]. rewrite Heq. reflexivity.
Defined.

(** ** The training loop *)

Lemma pymod_nonzero (a b : Z) : b <> 0 -> pymod a b = Ok (a mod b).
Proof.
  intros N. unfold pymod. destruct (Z.eqb_spec b 0) as [E|_]; [contradiction|].
  reflexivity.
Qed.

Lemma np_accumulate_nonempty (acc : list (list Z)) (arr : list Z) :
  np_accumulate acc arr <> [].
Proof. destruct acc; discriminate. Qed.



(** *** Reading a trace that was extended *)

Lemma global_steps_app (tr evs : list event) :
  global_steps (tr ++ evs) = global_steps tr ++ global_steps evs.
Proof. apply omap_app. Qed.





Lemma step_log_app (tr evs : list event) :
  step_log (tr ++ evs) = step_log tr ++ step_log evs.
Proof. apply omap_app. Qed.

Lemma accumulation_calls_app (tr evs : list event) :
  accumulation_calls (tr ++ evs) =
    accumulation_calls tr ++ accumulation_calls evs.
Proof. apply omap_app. Qed.




Lemma steps_upto_succ (n : Z) :
  0 <= n -> steps_upto (n + 1) = steps_upto n ++ [n + 1].
Proof.
  intros Hn. unfold steps_upto.
  replace (Z.to_nat (n + 1)) with (S (Z.to_nat n)) by lia.
  rewrite seq_S, map_app. cbn [map].
  replace (Z.of_nat (1 + Z.to_nat n)) with (n + 1) by lia. reflexivity.
Qed.

Lemma expected_step_log_succ (every rank n : Z) :
  0 <= n ->
  expected_step_log every rank (n + 1) =
    expected_step_log every rank n ++
      (n + 1, false) ::
      (if validation_due every rank (n + 1) then [(n + 1, true)] else []).
Proof.
  intros Hn. unfold expected_step_log.
  rewrite (steps_upto_succ n Hn), flat_map_app. cbn [flat_map].
  rewrite app_nil_r. reflexivity.
Qed.


Section LoopProperties.
Context `{T : Torch}.

Implicit Types (args : Args) (st : Loop) (test_loader : list Batch).

(** *** [valid] never returns *)

Lemma valid_raises args (m : Model) test_loader (gs : Z) :
  valid args m test_loader gs =
    Raise (match test_loader with
           | [] => IndexError
           | _ :: _ => NameError "wnb"
           end).
Proof. destruct test_loader; reflexivity. Qed.

Lemma evaluate_raises args test_loader st :
  evaluate args test_loader st =
    (mkLoop (fs st) (set_mode false (model st)) (optimizer st) (scheduler st)
       (losses st) (global_step st) (best_acc st) (all_preds st)
       (all_label st) (trace st ++ [EValid (global_step st)]),
     Raise (match test_loader with
            | [] => IndexError
            | _ :: _ => NameError "wnb"
            end)).
Proof. unfold evaluate. rewrite valid_raises. reflexivity. Qed.

(** *** What one micro-batch does to the loop variables

    Either the gradient is only accumulated, or an optimizer update
    follows, after which [valid] may be called. *)

Lemma train_step_spec args test_loader (e : nat) (s : Z) (b : Batch) st st'
    (r : result bool) :
  train_step args test_loader e s b st = (st', r) ->
  0 <= AverageMeter.count (losses st) ->
  let g := gradient_accumulation_steps args in
  let d := if 1 <? g then g else 1 in
  let gs := global_step st in
  best_acc st' = best_acc st /\ fs st' = fs st
  /\ all_preds st' <> [] /\ all_label st' <> []
  /\ 0 <= AverageMeter.count (losses st')
  /\ ((trace st' = trace st ++ [EBackward e s d]
       /\ global_step st' = gs
       /\ ((g = 0 /\ r = Raise ZeroDivisionError)
           \/ (g <> 0 /\ (s + 1) mod g <> 0 /\ r = Ok false)))
      \/ (g <> 0 /\ (s + 1) mod g = 0
          /\ global_step st' = gs + 1
          /\ ((eval_every args = 0
               /\ trace st' =
                    trace st ++ EBackward e s d :: update_events (gs + 1)
               /\ r = Raise ZeroDivisionError)
              \/ (validation_due (eval_every args) (local_rank args) (gs + 1)
                    = true
                  /\ trace st' =
                       trace st ++ EBackward e s d ::
                         update_events (gs + 1) ++ [EValid (gs + 1)]
                  /\ r = Raise (match test_loader with
                                | [] => IndexError
                                | _ :: _ => NameError "wnb"
                                end))
              \/ (eval_every args <> 0
                  /\ validation_due (eval_every args) (local_rank args)
                       (gs + 1) = false
                  /\ trace st' =
                       trace st ++ EBackward e s d :: update_events (gs + 1)
                  /\ ((num_steps args = 0 /\ r = Raise ZeroDivisionError)
                      \/ (num_steps args <> 0
                          /\ r = Ok ((gs + 1) mod num_steps args =? 0))))))).
Proof.
  intros H Hc. cbn zeta. unfold train_step in H.
  destruct (forward args (model st) b) as [loss preds].
  unfold pymod at 1 in H.
  destruct (Z.eqb_spec (gradient_accumulation_steps args) 0) as [Hg|Hg].
  { injection H as <- <-. cbn.
    repeat split; try apply np_accumulate_nonempty; try assumption.
    left. repeat split. left. split; [exact Hg | reflexivity]. }
  destruct (Z.eqb_spec ((s + 1) mod gradient_accumulation_steps args) 0)
    as [Hup|Hno].
  2:{ injection H as <- <-. cbn.
      repeat split; try apply np_accumulate_nonempty; try assumption.
      left. repeat split. right. repeat split; assumption. }
  match type of H with
  | context [AverageMeter.update (losses st) ?v 1] =>
      destruct (update_one_ok (losses st) v Hc) as (losses1 & Hl & Hc1)
  end.
  rewrite Hl in H.
  destruct (clip_grad_norm_ args _ (optimizer st)) as [model2 optimizer2].
  destruct (optimizer_step optimizer2 model2) as [optimizer3 model3].
  destruct (scheduler_step (scheduler st) optimizer3)
    as [scheduler4 optimizer4].
  unfold pymod at 1 in H. unfold validation_due.
  destruct (Z.eqb_spec (eval_every args) 0) as [Hee|Hee].
  { injection H as <- <-. cbn.
    repeat split; try apply np_accumulate_nonempty; try lia.
    right. repeat split; try assumption. left.
    repeat split; try assumption. rewrite <- app_assoc. reflexivity. }
  cbn [negb andb].
  unfold is_main_process in H.
  destruct (((global_step st + 1) mod eval_every args =? 0)
            && ((local_rank args =? -1) || (local_rank args =? 0))) eqn:Hdue.
  { rewrite evaluate_raises in H. injection H as <- <-. cbn.
    repeat split; try apply np_accumulate_nonempty; try lia.
    right. repeat split; try assumption. right. left.
    repeat split. rewrite <- !app_assoc. reflexivity. }
  unfold pymod in H.
  destruct (Z.eqb_spec (num_steps args) 0) as [Hn|Hn].
  { injection H as <- <-. cbn.
    repeat split; try apply np_accumulate_nonempty; try lia.
    right. repeat split; try assumption. right. right.
    repeat split; try assumption.
    - rewrite <- app_assoc. reflexivity.
    - left. split; [exact Hn | reflexivity]. }
  injection H as <- <-. cbn.
  repeat split; try apply np_accumulate_nonempty; try lia.
  right. repeat split; try assumption. right. right.
  repeat split; try assumption.
  - rewrite <- app_assoc. reflexivity.
  - right. split; [exact Hn | reflexivity].
Qed.

(** *** The end of an epoch: it always raises *)

Lemma epoch_end_spec args (e : nat) st :
  exists st' x,
    epoch_end args e st = (st', Raise x)
    /\ global_step st' = global_step st
    /\ best_acc st' = best_acc st
    /\ fs st' = fs st
    /\ (trace st' = trace st
        \/ exists ta, trace st' = trace st ++ [ETrainAccuracy e ta])
    /\ (all_preds st = [] -> x = IndexError)
    /\ (all_preds st <> [] -> all_label st <> [] ->
        x = if local_rank args =? -1 then ProcessGroupError
            else NameError "wnb").
Proof.
  unfold epoch_end.
  destruct (all_preds st) as [|p ps]; cbn [py_first].
  { exists st, IndexError. do 4 (split; [reflexivity|]).
    split; [left; reflexivity|]. split; [reflexivity|].
    intros H. contradiction. }
  destruct (all_label st) as [|l ls]; cbn [py_first].
  { exists st, IndexError. do 4 (split; [reflexivity|]).
    split; [left; reflexivity|]. split; [discriminate|].
    intros _ H. contradiction. }
  unfold dist_barrier.
  destruct (local_rank args =? -1).
  { exists st, ProcessGroupError. do 4 (split; [reflexivity|]).
    split; [left; reflexivity|]. split; [discriminate|]. reflexivity. }
  destruct (reduce_mean _ _ _ _) as [heap1 rt].
  unfold wnb.
  eexists _, _. split; [reflexivity|]. cbn.
  do 3 (split; [reflexivity|]).
  split; [right; eexists; reflexivity|]. split; [discriminate|]. reflexivity.
Qed.

(** *** Invariants of the two loops *)

Lemma run_epoch_inv args test_loader (e : nat) (n : Z)
    (Inv : Z -> Loop -> Prop) (Post : Loop -> Prop) :
  (forall i b st st' r,
      0 <= i < n ->
      Inv i st -> train_step args test_loader e i b st = (st', r) ->
      Post st' /\ (r = Ok false -> Inv (i + 1) st')) ->
  (forall i st, Inv i st -> Post st) ->
  forall (batches : list Batch) (i : Z) st st' r,
    0 <= i -> i + Z.of_nat (length batches) = n ->
    Inv i st ->
    run_epoch args test_loader e (enumerate_from i batches) st = (st', r) ->
    Post st'.
Proof.
  intros Hstep Hpost. induction batches as [|b rest IH];
    intros i st st' r Hi Hn HI Hrun.
  - cbn in Hrun. injection Hrun as <- <-. eapply Hpost. exact HI.
  - cbn [enumerate_from run_epoch] in Hrun. cbn [length] in Hn.
    destruct (train_step args test_loader e i b st) as [st1 r1] eqn:Hs.
    destruct (Hstep i b st st1 r1 ltac:(lia) HI Hs) as [HP Hnext].
    destruct r1 as [[|]|x].
    + injection Hrun as <- <-. exact HP.
    + eapply (IH (i + 1)); [lia | lia | apply Hnext; reflexivity | exact Hrun].
    + injection Hrun as <- <-. exact HP.
Qed.

(** The first pass through the body of [while True] is the last: it is
    left by an exception, in the [for] loop or after it. *)
Lemma train_loop_one_epoch (fuel : nat) args
    (train_loader : nat -> list Batch) test_loader (e : nat) st :
  exists st1 r1,
    run_epoch args test_loader e (enumerate (train_loader e))
      (epoch_start st) = (st1, r1)
    /\ ((exists x, r1 = Raise x
                   /\ train_loop (S fuel) args train_loader test_loader e st
                      = Some (st1, Raise x))
        \/ (exists brk st2 x,
              r1 = Ok brk
              /\ epoch_end args e st1 = (st2, Raise x)
              /\ train_loop (S fuel) args train_loader test_loader e st
                 = Some (st2, Raise x))).
Proof.
  cbn [train_loop].
  destruct (run_epoch args test_loader e (enumerate (train_loader e))
              (epoch_start st)) as [st1 r1] eqn:Hrun.
  exists st1, r1. split; [reflexivity|].
  destruct r1 as [brk|x].
  - right. destruct (epoch_end_spec args e st1) as (st2 & x & He & _).
    exists brk, st2, x. rewrite He. repeat split; reflexivity.
  - left. exists x. split; reflexivity.
Qed.

Lemma train_loop_inv args (train_loader : nat -> list Batch) test_loader
    (e : nat) (Inv : Z -> Loop -> Prop) (Post : Loop -> Prop) :
  (forall i b st st' r,
      0 <= i < Z.of_nat (length (train_loader e)) ->
      Inv i st -> train_step args test_loader e i b st = (st', r) ->
      Post st' /\ (r = Ok false -> Inv (i + 1) st')) ->
  (forall i st, Inv i st -> Post st) ->
  (forall st st' r, Post st -> epoch_end args e st = (st', r) -> Post st') ->
  forall (fuel : nat) st st' r,
    Inv 0 (epoch_start st) ->
    train_loop fuel args train_loader test_loader e st = Some (st', r) ->
    Post st' /\ exists x, r = Raise x.
Proof.
  intros Hstep Hpost Hend fuel st st' r HI Hrun.
  destruct fuel as [|fuel]; [discriminate|].
  destruct (train_loop_one_epoch fuel args train_loader test_loader e st)
    as (st1 & r1 & Hep & Hcase).
  assert (HP1 : Post st1).
  { eapply (run_epoch_inv args test_loader e _ Inv Post Hstep Hpost
              (train_loader e) 0); [lia | reflexivity | exact HI | exact Hep]. }
  destruct Hcase as [(x & -> & Hl)|(brk & st2 & x & -> & He & Hl)];
    rewrite Hl in Hrun; injection Hrun as <- <-.
  - split; [exact HP1 | eexists; reflexivity].
  - split; [eapply Hend; [exact HP1 | exact He] | eexists; reflexivity].
Qed.

(** *** Where [train] enters the loop *)

Lemma train_init_spec (fs0 : gmap string node) args (model0 : Model)
    (optimizer0 : option Optimizer) (scheduler0 : option Scheduler) args'
    (train_loader : nat -> list Batch) test_loader st :
  train_init fs0 args model0 optimizer0 scheduler0 =
    Ok (args', train_loader, test_loader, st) ->
  gradient_accumulation_steps args <> 0
  /\ args' = set_train_batch_size args
               (train_batch_size args / gradient_accumulation_steps args)
  /\ get_loader args' = (train_loader, test_loader)
  /\ global_step st = 0
  /\ best_acc st = 0%Q
  /\ trace st = [EModelZeroGrad]
  /\ losses st = AverageMeter.init
  /\ fs st = SummaryWriter (makedirs fs0 (output_dir args))
               (os_path_join "logs" (name args)).
Proof.
  unfold train_init, floordiv.
  destruct (Z.eqb_spec (gradient_accumulation_steps args) 0) as [E|Hg];
    [discriminate|].
  cbn [mbind result_bind].
  destruct (get_loader _) as [tl tel] eqn:Hl.
  destruct (if fp16 _ then _ else _) as [model1 optimizer2].
  intros H. injection H as <- <- <- <-. cbn.
  repeat split; try reflexivity; try exact Hg. exact Hl.
Qed.

Lemma train_init_ok (fs0 : gmap string node) args (model0 : Model)
    (optimizer0 : option Optimizer) (scheduler0 : option Scheduler) :
  gradient_accumulation_steps args <> 0 ->
  exists args' train_loader test_loader st,
    train_init fs0 args model0 optimizer0 scheduler0 =
      Ok (args', train_loader, test_loader, st).
Proof.
  intros Hg. unfold train_init, floordiv.
  destruct (Z.eqb_spec (gradient_accumulation_steps args) 0) as [E|_];
    [contradiction|].
  cbn [mbind result_bind].
  destruct (get_loader _) as [tl tel].
  destruct (if fp16 _ then _ else _) as [model1 optimizer2].
  eexists _, _, _, _. reflexivity.
Qed.

Lemma train_init_zero (fs0 : gmap string node) args (model0 : Model)
    (optimizer0 : option Optimizer) (scheduler0 : option Scheduler) :
  gradient_accumulation_steps args = 0 ->
  train_init fs0 args model0 optimizer0 scheduler0 = Raise ZeroDivisionError.
Proof.
  intros Hg. unfold train_init, floordiv. rewrite Hg. reflexivity.
Qed.

(** A run of [train] that got into the loop. *)
Lemma train_run_spec (fuel : nat) (fs0 : gmap string node) args
    (model0 : Model) (optimizer0 : option Optimizer)
    (scheduler0 : option Scheduler) st (r : result unit) :
  train_run fuel fs0 args model0 optimizer0 scheduler0 = Some (Ok (st, r)) ->
  exists args' train_loader test_loader st0,
    train_init fs0 args model0 optimizer0 scheduler0 =
      Ok (args', train_loader, test_loader, st0)
    /\ train_loop fuel args' train_loader test_loader 0%nat st0 = Some (st, r).
Proof.
  unfold train_run.
  destruct (train_init fs0 args model0 optimizer0 scheduler0)
    as [[[[args' tl] tel] st0]|x]; [|discriminate].
  destruct (train_loop fuel args' tl tel 0%nat st0) as [out|] eqn:Hl;
    [|discriminate].
  intros H. injection H as ->. eexists _, _, _, _. split; [reflexivity|].
  exact Hl.
Qed.

(** With one unit of fuel or more, a run of [train] that gets into the
    loop leaves it by an exception, and more fuel changes nothing. *)
Lemma train_run_total (fuel : nat) (fs0 : gmap string node) args
    (model0 : Model) (optimizer0 : option Optimizer)
    (scheduler0 : option Scheduler) :
  gradient_accumulation_steps args <> 0 ->
  exists st x,
    train_run (S fuel) fs0 args model0 optimizer0 scheduler0 =
      Some (Ok (st, Raise x))
    /\ train_run 1 fs0 args model0 optimizer0 scheduler0 =
         Some (Ok (st, Raise x)).
Proof.
  intros Hg.
  destruct (train_init_ok fs0 args model0 optimizer0 scheduler0 Hg)
    as (args' & tl & tel & st0 & Hinit).
  unfold train_run. rewrite Hinit.
  destruct (train_loop_one_epoch fuel args' tl tel 0%nat st0)
    as (st1 & r1 & Hep & Hcase).
  destruct (train_loop_one_epoch 0 args' tl tel 0%nat st0)
    as (st1' & r1' & Hep' & Hcase').
  rewrite Hep in Hep'. injection Hep' as <- <-.
  destruct Hcase as [(x & -> & Hl)|(brk & st2 & x & -> & He & Hl)].
  - destruct Hcase' as [(x' & Hx & Hl')|(brk' & st2' & x' & Hx & _)];
      [|discriminate].
    injection Hx as <-. rewrite Hl, Hl'. eexists _, _. split; reflexivity.
  - destruct Hcase' as [(x' & Hx & _)|(brk' & st2' & x' & Hx & He' & Hl')];
      [discriminate|].
    rewrite He in He'. injection He' as <- <-.
    rewrite Hl, Hl'. eexists _, _. split; reflexivity.
Qed.

(** *** The readers on the events of one micro-batch *)




(** *** Gradient accumulation *)




(** *** The schedule of validations and the end of the loop *)

Lemma schedule_inv_post (every rank n : Z) st :
  schedule_inv every rank n st -> schedule_post every rank n st.
Proof.
  intros (_ & Hgs & Hlog & Hsteps & Hno).
  split; [exact Hgs|]. split; [exact Hlog|]. split; [exact Hsteps|].
  split; [intros k Hk; apply Hno; lia|].
  intros Hpos _ Hmod. destruct (Hno (global_step st) ltac:(lia)) as (_ & H & _).
  contradiction.
Qed.

Lemma schedule_step args test_loader (e : nat) (i : Z) (b : Batch) st st'
    (r : result bool) :
  schedule_inv (eval_every args) (local_rank args) (num_steps args) st ->
  train_step args test_loader e i b st = (st', r) ->
  schedule_post (eval_every args) (local_rank args) (num_steps args) st'
  /\ (r = Ok false ->
      schedule_inv (eval_every args) (local_rank args) (num_steps args) st').
Proof.
  intros (Hc & Hgs & Hlog & Hsteps & Hno) Hs.
  apply train_step_spec in Hs as (_ & _ & _ & _ & Hc' & Hcase); [|exact Hc].
  cbn zeta in Hcase.
  set (d := if 1 <? gradient_accumulation_steps args
            then gradient_accumulation_steps args else 1) in *.
  destruct Hcase as [(Htr & Hgs' & _)|(_ & _ & Hgs' & Hsub)].
  - (* the gradient is only accumulated *)
    assert (HI : schedule_inv (eval_every args) (local_rank args)
                   (num_steps args) st').
    { split; [exact Hc'|]. rewrite Hgs', Htr, step_log_app, global_steps_app.
      change (step_log [EBackward e i d]) with (@nil (Z * bool)).
      change (global_steps [EBackward e i d]) with (@nil Z).
      rewrite !app_nil_r.
      split; [exact Hgs|]. split; [exact Hlog|]. split; [exact Hsteps|].
      exact Hno. }
    split; [apply schedule_inv_post; exact HI | intros _; exact HI].
  - (* an optimizer update follows *)
    assert (Hshape : exists v,
               trace st' =
                 trace st ++ EBackward e i d ::
                   update_events (global_step st + 1) ++ v
               /\ step_log v =
                    (if validation_due (eval_every args) (local_rank args)
                          (global_step st + 1)
                     then [(global_step st + 1, true)] else [])
               /\ accumulation_calls v = []
               /\ global_steps v = []
               /\ (r = Ok false ->
                   num_steps args <> 0
                   /\ (global_step st + 1) mod num_steps args <> 0
                   /\ validation_due (eval_every args) (local_rank args)
                        (global_step st + 1) = false)).
    { destruct Hsub as [(Hee & Htr & ->)|[(Hdue & Htr & ->)|(_ & Hdue & Htr & Hr)]].
      - exists []. rewrite app_nil_r. split; [exact Htr|].
        unfold validation_due. rewrite Hee.
        do 3 (split; [reflexivity|]). discriminate.
      - eexists. split; [exact Htr|]. rewrite Hdue.
        do 3 (split; [reflexivity|]). discriminate.
      - exists []. rewrite app_nil_r. split; [exact Htr|]. rewrite Hdue.
        do 3 (split; [reflexivity|]). intros Hok.
        destruct Hr as [[_ ->]|[Hn ->]]; [discriminate|].
        split; [exact Hn|]. split; [|reflexivity].
        intros Hm. apply Z.eqb_eq in Hm. rewrite Hm in Hok. discriminate. }
    destruct Hshape as (v & Htr & Hv & Hvc & Hvg & Hcont).
    assert (Hlog' : step_log (trace st') =
                    expected_step_log (eval_every args) (local_rank args)
                      (global_step st')).
    { rewrite Hgs', Htr, step_log_app, (expected_step_log_succ _ _ _ Hgs).
      rewrite Hlog. f_equal.
      change (step_log (EBackward e i d ::
                          update_events (global_step st + 1) ++ v))
        with ((global_step st + 1, false) :: step_log v).
      rewrite Hv. reflexivity. }
    assert (Hsteps' : global_steps (trace st') = steps_upto (global_step st')).
    { rewrite Hgs', Htr, global_steps_app, (steps_upto_succ _ Hgs), Hsteps.
      f_equal.
      change (global_steps (EBackward e i d ::
                              update_events (global_step st + 1) ++ v))
        with ((global_step st + 1) :: global_steps v).
      rewrite Hvg. reflexivity. }
    split.
    + split; [lia|]. split; [exact Hlog'|]. split; [exact Hsteps'|].
      split; [intros k Hk; apply Hno; lia|].
      intros _ _ _. rewrite Htr, accumulation_calls_app.
      change (accumulation_calls
                (EBackward e i d :: update_events (global_step st + 1) ++ v))
        with ([CBackward e i; CClipGradNorm; COptimizerStep; CSchedulerStep;
               CZeroGrad] ++ CIncrement :: accumulation_calls v).
      rewrite Hvc, !app_assoc. apply last_snoc.
    + intros Hr. destruct (Hcont Hr) as (Hn & Hm & Hdue).
      split; [exact Hc'|]. split; [lia|]. split; [exact Hlog'|].
      split; [exact Hsteps'|].
      intros k Hk. destruct (Z.eq_dec k (global_step st + 1)) as [->|Hne].
      * repeat split; assumption.
      * apply Hno. lia.
Qed.

Lemma schedule_epoch_end args (e : nat) (every rank n : Z) st st'
    (r : result bool) :
  schedule_post every rank n st -> epoch_end args e st = (st', r) ->
  schedule_post every rank n st'.
Proof.
  intros HP He.
  destruct (epoch_end_spec args e st)
    as (st2 & x & He2 & Hgs & _ & _ & Htr & _).
  rewrite He in He2. injection He2 as <- _.
  unfold schedule_post in *. rewrite Hgs.
  destruct Htr as [-> | [ta ->]]; [exact HP|].
  rewrite step_log_app, global_steps_app, accumulation_calls_app.
  change (step_log [ETrainAccuracy e ta]) with (@nil (Z * bool)).
  change (global_steps [ETrainAccuracy e ta]) with (@nil Z).
  change (accumulation_calls [ETrainAccuracy e ta]) with (@nil call).
  rewrite !app_nil_r. exact HP.
Qed.

(** *** No validation returns, nothing is saved *)



(** *** The state in which the loop is entered *)

Lemma train_init_invariants (fs0 : gmap string node) args (model0 : Model)
    (optimizer0 : option Optimizer) (scheduler0 : option Scheduler) args'
    (train_loader : nat -> list Batch) test_loader st0 :
  train_init fs0 args model0 optimizer0 scheduler0 =
    Ok (args', train_loader, test_loader, st0) ->
  gradient_accumulation_steps args' = gradient_accumulation_steps args
  /\ eval_every args' = eval_every args
  /\ local_rank args' = local_rank args
  /\ num_steps args' = num_steps args
  /\ accumulation_inv (gradient_accumulation_steps args)
       (length (train_loader 0%nat)) 0 (epoch_start st0)
  /\ schedule_inv (eval_every args) (local_rank args) (num_steps args)
       (epoch_start st0)
  /\ quiet_inv
       (SummaryWriter (makedirs fs0 (output_dir args))
          (os_path_join "logs" (name args)))
       (epoch_start st0).
Proof.
  intros Hinit.
  apply train_init_spec in Hinit
    as (_ & -> & _ & Hgs & Hb & Htr & Hlo & Hfs).
  do 4 (split; [reflexivity|]).
  unfold accumulation_inv, schedule_inv, quiet_inv.
  cbn [epoch_start trace losses global_step best_acc fs].
  rewrite Htr, Hlo, Hgs, Hb, Hfs. cbn.
  repeat split; try reflexivity; try lia; try constructor.
Qed.

(** *** The exceptions of the [for] loop *)

Lemma run_epoch_exn args test_loader (e : nat) (batches : list Batch) :
  forall (i : Z) st st' (x : exn),
    0 <= AverageMeter.count (losses st) ->
    run_epoch args test_loader e (enumerate_from i batches) st
      = (st', Raise x) ->
    x = ZeroDivisionError \/ x = IndexError \/ x = NameError "wnb".
Proof.
  induction batches as [|b rest IH]; intros i st st' x Hc Hrun;
    [discriminate|].
  cbn [enumerate_from run_epoch] in Hrun.
  destruct (train_step args test_loader e i b st) as [st1 r1] eqn:Hs.
  apply train_step_spec in Hs as (_ & _ & _ & _ & Hc1 & Hcase); [|exact Hc].
  cbn zeta in Hcase.
  destruct r1 as [[|]|x1].
  - discriminate.
  - eapply IH; [exact Hc1 | exact Hrun].
  - injection Hrun as _ <-.
    destruct Hcase as [(_ & _ & [[_ Hr]|(_ & _ & Hr)])|(_ & _ & _ & Hsub)].
    + injection Hr as ->. left. reflexivity.
    + discriminate.
    + destruct Hsub as [(_ & _ & Hr)|[(_ & _ & Hr)|(_ & _ & _ & [[_ Hr]|[_ Hr]])]].
      * injection Hr as ->. left. reflexivity.
      * injection Hr as ->. destruct test_loader; right; [left | right];
          reflexivity.
      * injection Hr as ->. left. reflexivity.
      * discriminate.
Qed.

(** With a zero [eval_every], or a zero [num_steps] when no validation is
    due at step 1, the first optimizer step of the first epoch raises. *)
Lemma run_epoch_zero_period args test_loader (e : nat)
    (batches : list Batch) :
  1 <= gradient_accumulation_steps args ->
  eval_every args = 0
  \/ (num_steps args = 0
      /\ validation_due (eval_every args) (local_rank args) 1 = false) ->
  forall (i : Z) st,
    0 <= i < gradient_accumulation_steps args ->
    gradient_accumulation_steps args - i <= Z.of_nat (length batches) ->
    0 <= AverageMeter.count (losses st) ->
    global_step st = 0 ->
    exists st',
      run_epoch args test_loader e (enumerate_from i batches) st
        = (st', Raise ZeroDivisionError).
Proof.
  intros Hg Hzero.
  induction batches as [|b rest IH]; intros i st Hi Hlen Hc Hgs.
  { cbn [length] in Hlen. lia. }
  cbn [enumerate_from run_epoch].
  destruct (train_step args test_loader e i b st) as [st1 r1] eqn:Hs.
  apply train_step_spec in Hs as (_ & _ & _ & _ & Hc1 & Hcase); [|exact Hc].
  cbn zeta in Hcase. rewrite Hgs in Hcase.
  destruct Hcase as [(_ & Hgs1 & [[Hg0 _]|(_ & Hmod & ->)])
                    |(_ & Hmod & _ & Hsub)].
  - lia.
  - assert (Hlt : i + 1 < gradient_accumulation_steps args).
    { destruct (Z.eq_dec (i + 1) (gradient_accumulation_steps args))
        as [E|N]; [|lia].
      exfalso. apply Hmod. rewrite E. apply Z_mod_same_full. }
    apply IH; [lia | cbn [length] in Hlen; lia | exact Hc1 | exact Hgs1].
  - destruct Hsub as [(_ & _ & ->)|[(Hdue & _)|(Hee & Hdue & _ & Hr)]].
    + exists st1. reflexivity.
    + exfalso. destruct Hzero as [Hee|[_ Hnd]].
      * unfold validation_due in Hdue. rewrite Hee in Hdue. discriminate.
      * change (0 + 1) with 1 in Hdue. congruence.
    + destruct Hr as [[_ ->]|[Hn _]].
      * exists st1. reflexivity.
      * exfalso. destruct Hzero as [Hz|[Hz _]]; contradiction.
Qed.

(** *** [valid] and [train] as they end *)

(** [valid] never returns: on an empty test loader it raises [IndexError]
    at [all_preds[0]], on any other it raises [NameError] at the first
    statement of the body of its loop. *)
Theorem valid_never_returns args (m : Model) test_loader (gs : Z) :
  (test_loader = [] -> valid args m test_loader gs = Raise IndexError)
  /\ (test_loader <> [] ->
      valid args m test_loader gs = Raise (NameError "wnb")).
Proof.
  rewrite valid_raises. split.
  - intros ->. reflexivity.
  - intros Hne. destruct test_loader; [contradiction | reflexivity].
Qed.



(** The schedule of a run of [train].  The run ends by an exception after
    [global_step] optimizer steps, numbered 1, 2, ...; [valid] was called
    after exactly those of them whose number is a multiple of
    [eval_every] while the rank is -1 or 0, which can only be the last
    one, since [valid] does not return; no step before the last had a
    multiple of [num_steps] as its number; and when the last one has, the
    increment of [global_step] is the last call of the loop: no further
    micro-batch is processed. *)
Theorem validation_schedule (fuel : nat) (fs0 : gmap string node) args
    (model0 : Model) (optimizer0 : option Optimizer)
    (scheduler0 : option Scheduler) (train_loader : nat -> list Batch)
    test_loader :
  gradient_accumulation_steps args <> 0 ->
  get_loader
    (set_train_batch_size args
       (train_batch_size args / gradient_accumulation_steps args)) =
    (train_loader, test_loader) ->
  exists st (x : exn),
    train_run (S fuel) fs0 args model0 optimizer0 scheduler0 =
      Some (Ok (st, Raise x))
    /\ 0 <= global_step st
    /\ global_steps (trace st) = steps_upto (global_step st)
    /\ step_log (trace st) =
         expected_step_log (eval_every args) (local_rank args)
           (global_step st)
    /\ (forall k, 0 < k < global_step st ->
          num_steps args <> 0 /\ k mod num_steps args <> 0
          /\ validation_due (eval_every args) (local_rank args) k = false)
    /\ (0 < global_step st -> num_steps args <> 0 ->
        global_step st mod num_steps args = 0 ->
        last (accumulation_calls (trace st)) = Some CIncrement).
Proof.
  intros Hg _.
  destruct (train_run_total fuel fs0 args model0 optimizer0 scheduler0 Hg)
    as (st & x & Hrun & _).
  destruct (train_run_spec _ _ _ _ _ _ _ _ Hrun)
    as (args' & tl & tel & st0 & Hinit & Hloop).
  pose proof (train_init_invariants _ _ _ _ _ _ _ _ _ Hinit)
    as (_ & Hee & Hrk & Hn & _ & HI & _).
  assert (HP : schedule_post (eval_every args) (local_rank args)
                 (num_steps args) st).
  { refine (proj1 (train_loop_inv args' tl tel 0%nat
                     (fun _ => schedule_inv (eval_every args)
                                 (local_rank args) (num_steps args))
                     (schedule_post (eval_every args) (local_rank args)
                        (num_steps args))
                     _ _ _ (S fuel) st0 st (Raise x) HI Hloop)).
    - intros i b s s' r _ Hinv Hs. rewrite <- Hee, <- Hrk, <- Hn in Hinv |- *.
      exact (schedule_step args' tel 0%nat i b s s' r Hinv Hs).
    - intros i s. apply schedule_inv_post.
    - intros s s' r. apply schedule_epoch_end. }
  destruct HP as (Hgs & Hlog & Hsteps & Hno & Hlast).
  exists st, x. split; [exact Hrun|]. split; [exact Hgs|].
  split; [exact Hsteps|]. split; [exact Hlog|]. split; [exact Hno | exact Hlast].
Qed.

(** [train] never returns.  Whatever its arguments, the loaders and the
    file system, the call raises, in its first epoch or at the end of it
    (fuel for one epoch is enough); and when [get_loader] returns loaders,
    what [train] raises is one of [ZeroDivisionError] (a zero period),
    [IndexError] (an empty loader), [NameError] (the name [wnb]) and the
    error of [dist.barrier]. *)
Theorem train_never_returns (fuel : nat) (fs0 : gmap string node) args
    (model0 : Model) (optimizer0 : option Optimizer)
    (scheduler0 : option Scheduler) :
  exists x : exn,
    train (S fuel) fs0 args model0 optimizer0 scheduler0 = Some (Raise x)
    /\ train 1 fs0 args model0 optimizer0 scheduler0 = Some (Raise x)
    /\ (gradient_accumulation_steps args = 0 -> x = ZeroDivisionError)
    /\ (forall (train_loader : nat -> list Batch) test_loader,
          get_loader
            (set_train_batch_size args
               (train_batch_size args / gradient_accumulation_steps args)) =
            (train_loader, test_loader) ->
          x = ZeroDivisionError \/ x = IndexError \/ x = NameError "wnb"
          \/ x = ProcessGroupError).
Proof.
  destruct (Z.eq_dec (gradient_accumulation_steps args) 0) as [Hg|Hg].
  { exists ZeroDivisionError. unfold train, train_run.
    rewrite (train_init_zero _ _ _ _ _ Hg).
    split; [reflexivity|]. split; [reflexivity|]. split; [reflexivity|].
    intros _ _ _. left. reflexivity. }
  destruct (train_run_total fuel fs0 args model0 optimizer0 scheduler0 Hg)
    as (st & x & Hrun & Hrun1).
  exists x. unfold train. rewrite Hrun, Hrun1.
  split; [reflexivity|]. split; [reflexivity|].
  split; [intros H0; contradiction|]. intros _ _ _.
  destruct (train_run_spec _ _ _ _ _ _ _ _ Hrun1)
    as (args' & tl & tel & st0 & Hinit & Hloop).
  pose proof (train_init_spec _ _ _ _ _ _ _ _ _ Hinit)
    as (_ & _ & _ & _ & _ & _ & Hlo & _).
  destruct (train_loop_one_epoch 0 args' tl tel 0%nat st0)
    as (st1 & r1 & Hep & [(x1 & -> & Hl)|(brk & st2 & x2 & -> & He & Hl)]);
    rewrite Hl in Hloop; injection Hloop as <- <-.
  - apply run_epoch_exn in Hep.
    + destruct Hep as [H|[H|H]]; tauto.
    + cbn [epoch_start losses]. rewrite Hlo. cbn. lia.
  - destruct (epoch_end_spec args' 0%nat st1)
      as (st2' & x' & He' & _ & _ & _ & _ & Hempty & Hfull).
    rewrite He in He'. injection He' as <- <-.
    destruct (all_preds st1) as [|p ps] eqn:Hp.
    + right. left. apply Hempty. reflexivity.
    + destruct (all_label st1) as [|l ls] eqn:Hlb.
      * unfold epoch_end in He. rewrite Hp, Hlb in He. cbn in He.
        injection He as _ <-. right. left. reflexivity.
      * rewrite Hfull by discriminate.
        destruct (local_rank args' =? -1); tauto.
Qed.

(** A zero period makes [train] raise [ZeroDivisionError]: at once when
    [gradient_accumulation_steps] is 0; at the first optimizer step, after
    [g - 1] micro-batches were accumulated, when [eval_every] is 0, and
    also when [num_steps] is 0 unless a validation is due at step 1 (that
    is, unless [eval_every] is 1 or -1 and the rank is -1 or 0). *)
Theorem train_zero_period (fuel : nat) (fs0 : gmap string node) args
    (model0 : Model) (optimizer0 : option Optimizer)
    (scheduler0 : option Scheduler) :
  let g := gradient_accumulation_steps args in
  (g = 0 ->
   train fuel fs0 args model0 optimizer0 scheduler0 =
     Some (Raise ZeroDivisionError))
  /\ (forall (train_loader : nat -> list Batch) test_loader,
        get_loader (set_train_batch_size args (train_batch_size args / g)) =
          (train_loader, test_loader) ->
        1 <= g ->
        g <= Z.of_nat (length (train_loader 0%nat)) ->
        eval_every args = 0
        \/ (num_steps args = 0
            /\ ((eval_every args <> 1 /\ eval_every args <> -1)
                \/ (local_rank args <> -1 /\ local_rank args <> 0))) ->
        train (S fuel) fs0 args model0 optimizer0 scheduler0 =
          Some (Raise ZeroDivisionError)).
Proof.
  intros g. split.
  - intros Hg. unfold train, train_run.
    rewrite (train_init_zero _ _ _ _ _ Hg). reflexivity.
  - intros tl tel Hl Hg Hlen Hzero.
    destruct (train_init_ok fs0 args model0 optimizer0 scheduler0
                ltac:(fold g; lia)) as (args' & tl' & tel' & st0 & Hinit).
    pose proof (train_init_spec _ _ _ _ _ _ _ _ _ Hinit)
      as (_ & Hargs & Hl' & Hgs & _ & _ & Hlo & _).
    pose proof (train_init_invariants _ _ _ _ _ _ _ _ _ Hinit)
      as (Hg' & Hee & Hrk & Hn & _).
    subst args'. fold g in Hl'. rewrite Hl in Hl'. injection Hl' as <- <-.
    set (args' := set_train_batch_size args (train_batch_size args / g)) in *.
    assert (Hzero' : eval_every args' = 0
                     \/ (num_steps args' = 0
                         /\ validation_due (eval_every args')
                              (local_rank args') 1 = false)).
    { change (eval_every args') with (eval_every args).
      change (local_rank args') with (local_rank args).
      change (num_steps args') with (num_steps args).
      destruct Hzero as [Hz|[Hz Hnd]];
        [left; exact Hz | right; split; [exact Hz|]].
      unfold validation_due.
      destruct (Z.eqb_spec (eval_every args) 0) as [E|N]; [reflexivity|].
      cbn [negb andb].
      destruct Hnd as [[H1 H2]|[H1 H2]].
      - assert (Hm : 1 mod eval_every args <> 0).
        { intros Hm. apply Z.mod_divide in Hm; [|exact N].
          apply Z.divide_1_r in Hm. tauto. }
        apply Z.eqb_neq in Hm. rewrite Hm. reflexivity.
      - apply Z.eqb_neq in H1, H2. rewrite H1, H2.
        apply andb_false_r. }
    assert (Hg1 : gradient_accumulation_steps args' = g) by reflexivity.
    destruct (run_epoch_zero_period args' tel 0%nat (tl 0%nat)
                ltac:(rewrite Hg1; exact Hg) Hzero' 0 (epoch_start st0)
                ltac:(rewrite Hg1; lia)
                ltac:(rewrite Hg1; lia)
                ltac:(cbn [epoch_start losses]; rewrite Hlo; cbn; lia)
                Hgs)
      as (st' & Hrun).
    unfold args', g in Hrun.
    unfold train, train_run. rewrite Hinit. cbn [train_loop].
    unfold enumerate. rewrite Hrun. reflexivity.
Qed.

(** A training loader without batches makes [train] raise [IndexError]
    when the first epoch ends: no array was accumulated for
    [all_preds[0]]. *)
Theorem train_empty_loader (fuel : nat) (fs0 : gmap string node) args
    (model0 : Model) (optimizer0 : option Optimizer)
    (scheduler0 : option Scheduler) (train_loader : nat -> list Batch)
    test_loader :
  gradient_accumulation_steps args <> 0 ->
  get_loader
    (set_train_batch_size args
       (train_batch_size args / gradient_accumulation_steps args)) =
    (train_loader, test_loader) ->
  train_loader 0%nat = [] ->
  train (S fuel) fs0 args model0 optimizer0 scheduler0 = Some (Raise IndexError).
Proof.
  intros Hg Hl Hempty.
  destruct (train_init_ok fs0 args model0 optimizer0 scheduler0 Hg)
    as (args' & tl' & tel' & st0 & Hinit).
  pose proof (train_init_spec _ _ _ _ _ _ _ _ _ Hinit)
    as (_ & Hargs & Hl' & _).
  subst args'. rewrite Hl in Hl'. injection Hl' as <- <-.
  unfold train, train_run. rewrite Hinit. cbn [train_loop]. rewrite Hempty.
  reflexivity.
Qed.

(** *** [main] *)

(** [setup] looks the model type up first: for a model type that
    [CONFIGS] does not hold it raises [KeyError] with that type, whatever
    the dataset is, and [main] ends with this exception before any
    training, whatever the file system holds. *)
Theorem unknown_model_type (fuel : nat) (device_count : Z)
    (fs : gmap string node) args :
  CONFIGS !! model_type args = None ->
  setup args = Raise (KeyError (model_type args))
  /\ main fuel device_count fs args = Some (Raise (KeyError (model_type args))).
Proof.
  intros Hc.
  assert (Hs : forall a, model_type a = model_type args ->
                         setup a = Raise (KeyError (model_type args))).
  { intros a Ha. unfold setup. rewrite Ha, Hc. reflexivity. }
  split; [apply Hs; reflexivity|].
  unfold main. rewrite (Hs (set_nprocs args device_count) eq_refl).
  reflexivity.
Qed.

(** [main] never gets to [train].  It always raises, and what it raises
    does not depend on the fuel.  When [setup] succeeds: a resumption
    ([start_step > 0]) without a checkpoint file raises
    [FileNotFoundError]; in every other case (no resumption, or a
    checkpoint that was found and loaded) [main] raises [NameError] at
    [if wnb:], the statement before the call of [train]. *)
Theorem main_never_trains (fuel : nat) (device_count : Z)
    (fs : gmap string node) args :
  (exists x : exn,
      main fuel device_count fs args = Some (Raise x)
      /\ main 0 device_count fs args = Some (Raise x))
  /\ forall (config : Config) (num_classes : Z),
       CONFIGS !! model_type args = Some config ->
       dataset_num_classes (dataset args) = Ok num_classes ->
       let path :=
         os_path_join (output_dir args) (name args +:+ "_checkpoint.bin") in
       (0 < start_step args -> isfile fs path = false ->
        main fuel device_count fs args =
          Some (Raise (FileNotFoundError ("No checkpoint found at " +:+ path))))
       /\ (start_step args <= 0 \/ isfile fs path = true ->
           main fuel device_count fs args = Some (Raise (NameError "wnb"))).
Proof.
  split.
  - unfold main.
    destruct (setup (set_nprocs args device_count)) as [[args1 model1]|x];
      [|exists x; split; reflexivity].
    destruct (0 <? start_step args1).
    + destruct (resume_training fs args1 model1 _ _)
        as [[[[[a m] o] s] acc]|x]; cbn [mbind result_bind].
      * exists (NameError "wnb"). split; reflexivity.
      * exists x. split; reflexivity.
    + exists (NameError "wnb"). split; reflexivity.
  - intros config num_classes Hc Hd path.
    change path with (checkpoint_path args). clear path.
    set (args1 := set_nprocs args device_count).
    assert (Hs : exists model0, setup args1 = Ok (args1, model0)).
    { unfold setup. change (model_type args1) with (model_type args).
      change (dataset args1) with (dataset args).
      rewrite Hc. cbn [mbind result_bind]. rewrite Hd.
      eexists. reflexivity. }
    destruct Hs as [model0 Hs].
    change (checkpoint_path args) with (checkpoint_path args1).
    split.
    + intros Hpos Hf. unfold main. fold args1. rewrite Hs.
      assert (Hlt : (0 <? start_step args1) = true)
        by (apply Z.ltb_lt; exact Hpos).
      rewrite Hlt.
      rewrite (resume_training_missing fs args1 _ _ _ Hf). reflexivity.
    + intros Hcase. unfold main. fold args1. rewrite Hs.
      destruct (0 <? start_step args1) eqn:Hlt; [|reflexivity].
      destruct Hcase as [Hle|Hf].
      { apply Z.ltb_lt in Hlt. change (start_step args1) with (start_step args)
          in Hlt. lia. }
      unfold isfile in Hf.
      destruct (fs !! checkpoint_path args1) as [[c| |]|] eqn:Hfile;
        try discriminate.
      rewrite (resume_training_found fs args1 _ _ _ c Hfile). reflexivity.
Qed.

End LoopProperties.

(** ** Runs on concrete inputs

    The small instance of the library, with three micro-batches in every
    epoch ([tiny3]) or five ([tiny5]) and a test loader of one batch. *)

Lemma valid_never_returns_witness :
  valid (T := tiny3) default_args fresh_model [[1; 200]] 1 =
    Raise (NameError "wnb")
  /\ valid (T := tiny3) default_args fresh_model [] 1 = Raise IndexError.
Proof.
  split.
  - apply (valid_never_returns (T := tiny3)). discriminate.
  - apply (valid_never_returns (T := tiny3)). reflexivity.
Defined.

(** Rank 1, [g = 2], five micro-batches: two optimizer steps, each on two
    micro-batches, the fifth gradient left in the buffers when the epoch
    ends in [NameError]. *)
Example gradient_accumulation_run :
  accumulation_digest
    (train_run (T := tiny5) 1 ∅ (loop_args 1 2 1 5) fresh_model None None) =
    Some ([[(0%nat, 0); (0%nat, 1)]; [(0%nat, 2); (0%nat, 3)]],
          [(0%nat, 4)], [2; 2; 2; 2; 2], Raise (NameError "wnb")).
Proof. vm_compute. reflexivity. Qed.



(** C8. On the main process, with validation after every step and five
    steps asked for, [train] makes one optimizer step, calls [valid], and
    ends there with [NameError]: [global_step] never reaches a multiple of
    [num_steps], and the steps 2 to 5, each a multiple of [eval_every],
    never take place.  On a process of rank 1, with three micro-batches in
    an epoch, it makes three steps and ends with [NameError] when the
    epoch ends; on rank -1 without a validation due, with the error of
    [dist.barrier].  No second epoch begins. *)
Theorem training_ends_before_num_steps :
  run_digest
    (train_run (T := tiny3) 5 ∅ (loop_args (-1) 1 1 5) fresh_model None None) =
    Some ([1], [(1, false); (1, true)], [], [], 1, 0%Q,
          Raise (NameError "wnb"))
  /\ run_digest
       (train_run (T := tiny3) 5 ∅ (loop_args 1 1 1 5) fresh_model None None) =
       Some ([1; 2; 3], [(1, false); (2, false); (3, false)], [], [], 3, 0%Q,
             Raise (NameError "wnb"))
  /\ run_digest
       (train_run (T := tiny3) 5 ∅ (loop_args (-1) 1 200 5) fresh_model None
          None) =
       Some ([1; 2; 3], [(1, false); (2, false); (3, false)], [], [], 3, 0%Q,
             Raise ProcessGroupError).
Proof. repeat split; vm_compute; reflexivity. Qed.

(** C2. [main] is asked to resume ([start_step] is 3) and the checkpoint
    file exists, written at step 3 with best accuracy 0.9.
    [resume_training] loads it, and [main] then raises [NameError] at
    [if wnb:], before the call of [train]: the loop does not continue at
    all.  Were [train] called with what [main] has by then (the restored
    states, [args.start_step = 3], [args.test_best_acc = 0.9]), its
    counters would start at 0 all the same: its first optimizer step is
    numbered 1 and its best accuracy is 0. *)
Theorem resumed_run_never_trains :
  isfile resume_fs "output/run_checkpoint.bin" = true
  /\ resume_training (T := tiny3) resume_fs resume_args fresh_model 0 0 =
       Ok (set_start_step resume_args 3, mkTiny 200 3 false, 3, 3, (9 # 10)%Q)
  /\ main (T := tiny3) 5 1 resume_fs resume_args =
       Some (Raise (NameError "wnb"))
  /\ run_digest
       (train_run (T := tiny3) 5 resume_fs resumed_args (mkTiny 200 3 false)
          (Some 3) (Some 3)) =
       Some ([1], [(1, false); (1, true)], [], [], 1, 0%Q,
             Raise (NameError "wnb")).
Proof. repeat split; vm_compute; reflexivity. Qed.

Lemma validation_schedule_witness :
  exists st x,
    train_run (T := tiny3) 1 ∅ (loop_args 1 1 1 5) fresh_model None None =
      Some (Ok (st, Raise x))
    /\ step_log (trace st) =
         expected_step_log 1 1 (global_step st)
    /\ global_steps (trace st) = steps_upto (global_step st).
Proof.
  destruct (validation_schedule (T := tiny3) 0 ∅ (loop_args 1 1 1 5)
              fresh_model None None (fun _ => [[1]; [1]; [1]]) [[1; 200]]
              ltac:(discriminate) eq_refl)
    as (st & x & Hrun & _ & Hsteps & Hlog & _).
  exists st, x. split; [exact Hrun|]. split; [exact Hlog | exact Hsteps].
Defined.

Lemma train_never_returns_witness :
  exists x,
    train (T := tiny3) 7 ∅ default_args fresh_model None None =
      Some (Raise x)
    /\ (x = ZeroDivisionError \/ x = IndexError \/ x = NameError "wnb"
        \/ x = ProcessGroupError).
Proof.
  destruct (train_never_returns (T := tiny3) 6 ∅ default_args fresh_model
              None None) as (x & Hrun & _ & _ & Hx).
  exists x. split; [exact Hrun|].
  exact (Hx (fun _ => [[1]; [1]; [1]]) [[1; 200]] eq_refl).
Defined.

Lemma train_zero_period_witness :
  train (T := tiny3) 1 ∅ (loop_args (-1) 2 0 5) fresh_model None None =
    Some (Raise ZeroDivisionError)
  /\ train (T := tiny3) 1 ∅ (loop_args (-1) 0 1 5) fresh_model None None =
       Some (Raise ZeroDivisionError)
  /\ train (T := tiny3) 1 ∅ (loop_args 1 1 1 0) fresh_model None None =
       Some (Raise ZeroDivisionError).
Proof.
  split; [|split].
  - apply (proj2 (train_zero_period (T := tiny3) 0 ∅ (loop_args (-1) 2 0 5)
                    fresh_model None None) (fun _ => [[1]; [1]; [1]])
             [[1; 200]] eq_refl); [cbn; lia | cbn; lia | left; reflexivity].
  - apply (proj1 (train_zero_period (T := tiny3) 1 ∅ (loop_args (-1) 0 1 5)
                    fresh_model None None)). reflexivity.
  - apply (proj2 (train_zero_period (T := tiny3) 0 ∅ (loop_args 1 1 1 0)
                    fresh_model None None) (fun _ => [[1]; [1]; [1]])
             [[1; 200]] eq_refl); [cbn; lia | cbn; lia |].
    right. split; [reflexivity|]. right. split; discriminate.
Defined.

Lemma train_empty_loader_witness :
  train (T := tiny0) 1 ∅ default_args fresh_model None None =
    Some (Raise IndexError).
Proof.
  apply (train_empty_loader (T := tiny0) 0 ∅ default_args fresh_model None
           None (fun _ => []) []); [discriminate | reflexivity | reflexivity].
Defined.

Lemma unknown_model_type_witness :
  main (T := tiny0) 3 1 ∅
    (mkArgs "run" "CUB" "ViT-X" "w.npz" "output" 400 4 200 (3 # 100) 0
       10000 "cosine" 500 1 (-1) 1 false 0 false false false 0 1 None) =
    Some (Raise (KeyError "ViT-X")).
Proof.
  exact (proj2 (unknown_model_type (T := tiny0) 3 1 ∅
                  (mkArgs "run" "CUB" "ViT-X" "w.npz" "output" 400 4 200
                     (3 # 100) 0 10000 "cosine" 500 1 (-1) 1 false 0 false
                     false false 0 1 None) eq_refl)).
Defined.

Lemma main_never_trains_witness :
  main (T := tiny3) 5 1 ∅ resume_args =
    Some (Raise (FileNotFoundError
                   "No checkpoint found at output/run_checkpoint.bin"))
  /\ main (T := tiny3) 5 1 resume_fs resume_args =
       Some (Raise (NameError "wnb"))
  /\ main (T := tiny3) 5 1 ∅ default_args = Some (Raise (NameError "wnb")).
Proof.
  split; [|split].
  - apply (proj2 (main_never_trains (T := tiny3) 5 1 ∅ resume_args) tt 200
             eq_refl eq_refl); [cbn; lia | reflexivity].
  - apply (proj2 (main_never_trains (T := tiny3) 5 1 resume_fs resume_args)
             tt 200 eq_refl eq_refl). right. reflexivity.
  - apply (proj2 (main_never_trains (T := tiny3) 5 1 ∅ default_args) tt 200
             eq_refl eq_refl). left. cbn. lia.
Defined.

(** ** [get_loader] *)

Lemma build_datasets_known (args : Args) (opts : DataUtils.LoaderOptions) :
  DataUtils.known_dataset (dataset args) = true <->
  exists trainset testset,
    DataUtils.build_datasets args opts = Some (trainset, testset).
Proof.
  unfold DataUtils.known_dataset, DataUtils.build_datasets.
  destruct (DataUtils.fine_grained_transforms args opts) as [tr te].
  destruct (dataset args =? "INat2017")%string;
    destruct (dataset args =? "dogs")%string;
    destruct (dataset args =? "CUB")%string;
    destruct (dataset args =? "nabirds")%string; cbn;
    (split; [intros _; eexists _, _; reflexivity | intros _; reflexivity])
    || (split; [discriminate | intros (a & b & H); discriminate]).
Qed.

(** [get_loader] returns its two loaders exactly for the four datasets it
    knows; for any other [args.dataset] no branch assigns [trainset], and
    its first use raises [UnboundLocalError].  The test loader is never
    [None]. *)
Theorem get_loader_unknown_dataset (args : Args)
    (opts : DataUtils.LoaderOptions) :
  (DataUtils.known_dataset (dataset args) = false ->
   snd (DataUtils.get_loader args opts) =
     inl (DataUtils.UnboundLocalError "trainset"))
  /\ (DataUtils.known_dataset (dataset args) = true ->
      exists train_loader test_loader,
        snd (DataUtils.get_loader args opts) =
          inr (train_loader, Some test_loader)).
Proof.
  pose proof (build_datasets_known args opts) as Hk.
  unfold DataUtils.get_loader.
  destruct (DataUtils.build_datasets args opts) as [[trainset testset]|].
  - split.
    + intros Hf. destruct Hk as [_ Hk]. rewrite Hk in Hf; [discriminate|].
      eexists _, _. reflexivity.
    + intros _. eexists _, _. reflexivity.
  - split; [reflexivity|]. intros Ht. apply Hk in Ht as (a & b & H).
    discriminate.
Qed.

Lemma get_loader_unknown_dataset_witness :
  snd (DataUtils.get_loader
         (mkArgs "run" "cars" "ViT-B_16" "w.npz" "output" 400 4 200 (3 # 100) 0
            10000 "cosine" 500 1 (-1) 1 false 0 false false false 0 1 None)
         (DataUtils.mkLoaderOptions 448 4 4 "./CUB_200_2011" false)) =
    inl (DataUtils.UnboundLocalError "trainset")
  /\ exists train_loader test_loader,
       snd (DataUtils.get_loader default_args
              (DataUtils.mkLoaderOptions 448 4 4 "./CUB_200_2011" false)) =
         inr (train_loader, Some test_loader).
Proof.
  split.
  - apply get_loader_unknown_dataset. reflexivity.
  - apply get_loader_unknown_dataset. reflexivity.
Defined.

(** The barriers of [get_loader].  A process that is not distributed
    (rank -1) calls no barrier.  Process 0 builds both datasets, the
    training set first, and then calls the barrier once; every other
    process calls the barrier once and builds its datasets afterwards.
    When no dataset is built (an unknown [args.dataset]) the barriers are
    called all the same. *)
Theorem get_loader_barriers (args : Args) (opts : DataUtils.LoaderOptions) :
  (forall trainset testset,
      DataUtils.build_datasets args opts = Some (trainset, testset) ->
      fst (DataUtils.get_loader args opts) =
        (if local_rank args =? -1
         then [DataUtils.LDataset trainset; DataUtils.LDataset testset]
         else if local_rank args =? 0
         then [DataUtils.LDataset trainset; DataUtils.LDataset testset;
               DataUtils.LBarrier]
         else [DataUtils.LBarrier; DataUtils.LDataset trainset;
               DataUtils.LDataset testset]))
  /\ (DataUtils.build_datasets args opts = None ->
      fst (DataUtils.get_loader args opts) =
        (if local_rank args =? -1 then [] else [DataUtils.LBarrier])).
Proof.
  unfold DataUtils.get_loader, is_main_process.
  split.
  - intros trainset testset ->.
    destruct (Z.eqb_spec (local_rank args) (-1)) as [E1|N1];
      destruct (Z.eqb_spec (local_rank args) 0) as [E0|N0]; try lia;
      reflexivity.
  - intros ->.
    destruct (Z.eqb_spec (local_rank args) (-1)) as [E1|N1];
      destruct (Z.eqb_spec (local_rank args) 0) as [E0|N0]; try lia;
      reflexivity.
Qed.

Lemma get_loader_barriers_witness :
  exists trainset testset,
    DataUtils.build_datasets default_args
      (DataUtils.mkLoaderOptions 448 4 4 "./CUB_200_2011" false) =
      Some (trainset, testset)
    /\ fst (DataUtils.get_loader (loop_args 1 1 200 10000)
              (DataUtils.mkLoaderOptions 448 4 4 "./CUB_200_2011" false)) =
         [DataUtils.LBarrier; DataUtils.LDataset trainset;
          DataUtils.LDataset testset]
    /\ fst (DataUtils.get_loader (loop_args 0 1 200 10000)
              (DataUtils.mkLoaderOptions 448 4 4 "./CUB_200_2011" false)) =
         [DataUtils.LDataset trainset; DataUtils.LDataset testset;
          DataUtils.LBarrier]
    /\ fst (DataUtils.get_loader default_args
              (DataUtils.mkLoaderOptions 448 4 4 "./CUB_200_2011" false)) =
         [DataUtils.LDataset trainset; DataUtils.LDataset testset].
Proof.
  eexists _, _. split; [reflexivity|].
  split; [|split].
  - apply (proj1 (get_loader_barriers (loop_args 1 1 200 10000)
                    (DataUtils.mkLoaderOptions 448 4 4 "./CUB_200_2011" false))).
    reflexivity.
  - apply (proj1 (get_loader_barriers (loop_args 0 1 200 10000)
                    (DataUtils.mkLoaderOptions 448 4 4 "./CUB_200_2011" false))).
    reflexivity.
  - apply (proj1 (get_loader_barriers default_args
                    (DataUtils.mkLoaderOptions 448 4 4 "./CUB_200_2011" false))).
    reflexivity.
Defined.

(** The test pipeline holds no random transform, whatever the dataset and
    the options, while the training pipeline always holds one: evaluation
    is repeatable, training is augmented. *)
Theorem test_pipeline_deterministic (args : Args)
    (opts : DataUtils.LoaderOptions) (trainset testset : DataUtils.dataset_call) :
  DataUtils.build_datasets args opts = Some (trainset, testset) ->
  Forall (fun t => DataUtils.is_random t = false)
    (DataUtils.transforms_of testset)
  /\ Exists (fun t => DataUtils.is_random t = true)
       (DataUtils.transforms_of trainset).
Proof.
  unfold DataUtils.build_datasets, DataUtils.fine_grained_transforms.
  destruct (aplly_BE args);
    destruct (dataset args =? "INat2017")%string;
    destruct (dataset args =? "dogs")%string;
    destruct (dataset args =? "CUB")%string;
    destruct (dataset args =? "nabirds")%string; cbn;
    intros H; try discriminate; injection H as <- <-; cbn;
    (split; [repeat constructor |]);
    (apply Exists_cons_tl; apply Exists_cons_hd; reflexivity).
Qed.

Lemma test_pipeline_deterministic_witness :
  exists trainset testset,
    DataUtils.build_datasets default_args
      (DataUtils.mkLoaderOptions 448 4 4 "./CUB_200_2011" false) =
      Some (trainset, testset)
    /\ Forall (fun t => DataUtils.is_random t = false)
         (DataUtils.transforms_of testset).
Proof.
  eexists _, _. split; [reflexivity|].
  exact (proj1 (test_pipeline_deterministic default_args
                  (DataUtils.mkLoaderOptions 448 4 4 "./CUB_200_2011" false)
                  _ _ eq_refl)).
Defined.

(** Training and test images leave their pipelines with the same size:
    [img_size] squared for [dogs], [CUB] and [nabirds], with or without
    [aplly_BE], and 304 squared for [INat2017], whatever [args.img_size]
    is. *)
Theorem pipelines_agree_on_size (args : Args)
    (opts : DataUtils.LoaderOptions) (trainset testset : DataUtils.dataset_call) :
  DataUtils.build_datasets args opts = Some (trainset, testset) ->
  DataUtils.output_size (DataUtils.transforms_of trainset) =
    DataUtils.output_size (DataUtils.transforms_of testset)
  /\ DataUtils.output_size (DataUtils.transforms_of testset) =
       Some (if (dataset args =? "INat2017")%string then (304, 304)
             else (img_size args, img_size args)).
Proof.
  unfold DataUtils.build_datasets, DataUtils.fine_grained_transforms.
  destruct (aplly_BE args);
    destruct (dataset args =? "INat2017")%string;
    destruct (dataset args =? "dogs")%string;
    destruct (dataset args =? "CUB")%string;
    destruct (dataset args =? "nabirds")%string; cbn;
    intros H; try discriminate; injection H as <- <-; split; reflexivity.
Qed.

Lemma pipelines_agree_on_size_witness :
  exists trainset testset,
    DataUtils.build_datasets default_args
      (DataUtils.mkLoaderOptions 448 4 4 "./CUB_200_2011" false) =
      Some (trainset, testset)
    /\ DataUtils.output_size (DataUtils.transforms_of trainset) = Some (400, 400)
    /\ DataUtils.output_size (DataUtils.transforms_of testset) = Some (400, 400).
Proof.
  eexists _, _. split; [reflexivity|].
  destruct (pipelines_agree_on_size default_args
              (DataUtils.mkLoaderOptions 448 4 4 "./CUB_200_2011" false) _ _
              eq_refl) as [H1 H2].
  split; [rewrite H1|]; exact H2.
Defined.

(** ** [simple_accuracy] *)

Lemma count_equal_bounds (preds : list Z) :
  forall labels : list Z,
    0 <= count_equal preds labels <= Z.of_nat (length preds).
Proof.
  induction preds as [|p ps IH]; intros [|l ls]; cbn [count_equal length];
    try lia.
  specialize (IH ls). destruct (p =? l); lia.
Qed.

Lemma count_equal_all (preds : list Z) :
  forall labels : list Z,
    length labels = length preds ->
    count_equal preds labels = Z.of_nat (length preds) <-> preds = labels.
Proof.
  induction preds as [|p ps IH]; intros [|l ls] Hlen; cbn in Hlen;
    try discriminate.
  - split; reflexivity.
  - cbn [count_equal length]. injection Hlen as Hlen.
    pose proof (count_equal_bounds ps ls) as Hb.
    destruct (Z.eqb_spec p l) as [->|Hne].
    + split; intros H.
      * assert (E : count_equal ps ls = Z.of_nat (length ps)) by lia.
        apply (IH ls Hlen) in E. congruence.
      * assert (E : ps = ls) by congruence. apply (IH ls Hlen) in E. lia.
    + split; [lia | congruence].
Qed.

(** The accuracy of a non-empty array of predictions is a fraction between
    0 and 1, and it is 1 exactly when every prediction equals its label. *)
Theorem simple_accuracy_range (preds labels : list Z) :
  preds <> [] ->
  length labels = length preds ->
  (0 <= simple_accuracy preds labels)%Q
  /\ (simple_accuracy preds labels <= 1)%Q
  /\ ((simple_accuracy preds labels == 1)%Q <-> preds = labels).
Proof.
  intros Hne Hlen. unfold simple_accuracy.
  pose proof (count_equal_bounds preds labels) as [H0 H1].
  assert (Hn : 0 < Z.of_nat (length preds)) by (destruct preds; [congruence | cbn; lia]).
  assert (Hq : (0 < inject_Z (Z.of_nat (length preds)))%Q).
  { change 0%Q with (inject_Z 0). rewrite <- Zlt_Qlt. exact Hn. }
  split; [|split].
  - apply Qle_shift_div_l; [exact Hq|]. rewrite Qmult_0_l.
    change 0%Q with (inject_Z 0). rewrite <- Zle_Qle. exact H0.
  - apply Qle_shift_div_r; [exact Hq|]. rewrite Qmult_1_l.
    rewrite <- Zle_Qle. exact H1.
  - rewrite <- (count_equal_all preds labels Hlen). split.
    + intros He.
      assert (E : (inject_Z (count_equal preds labels)
                   == inject_Z (Z.of_nat (length preds)))%Q).
      { rewrite <- (Qmult_div_r (inject_Z (count_equal preds labels))
                      (inject_Z (Z.of_nat (length preds)))).
        - rewrite He. apply Qmult_1_r.
        - intros E0. rewrite E0 in Hq. apply Qlt_irrefl in Hq. exact Hq. }
      exact (proj1 (inject_Z_injective _ _) E).
    + intros ->. field. intros E0. rewrite E0 in Hq.
      apply Qlt_irrefl in Hq. exact Hq.
Qed.

Lemma simple_accuracy_range_witness :
  (0 <= simple_accuracy [1; 0]%Z [1; 200]%Z)%Q
  /\ (simple_accuracy [1; 0]%Z [1; 200]%Z <= 1)%Q.
Proof.
  destruct (simple_accuracy_range [1; 0] [1; 200]) as (H0 & H1 & _);
    [discriminate | reflexivity |].
  split; assumption.
Defined.

